(** * Order engine and access control of the kaavyar backend

    A shallow embedding of [app/api/orders.py], [app/models/order.py] and
    [app/core/security.py].  Python integers are [Z]; [str] is [string];
    MongoDB documents with a fixed schema are records; an open [dict] (the
    JWT claims) is a [gmap]; a collection is the list of its documents in
    natural order; handlers are functions in a small state-and-exception
    monad over the database. *)

From Stdlib Require Import ZArith NArith String Ascii List Bool Lia Sorted.
From stdpp Require Import base option list gmap strings.

Local Open Scope string_scope.
Local Open Scope Z_scope.

(** ** Python built-ins used by the handlers *)

(** [sum(iterable)]: left-to-right accumulation starting from [0]. *)
Definition sum (xs : list Z) : Z := fold_left Z.add xs 0.

(** [str.lower()] on ASCII text: [A]..[Z] go to [a]..[z], every other
    ASCII character is kept.  Outside ASCII Python folds case by the
    Unicode tables, which this function does not carry: a statement that
    speaks of [lower] on every string assumes [is_ascii] of it. *)
Definition lower_ascii (c : ascii) : ascii :=
  let n := N_of_ascii c in
  if ((65 <=? n) && (n <=? 90))%N then ascii_of_N (n + 32) else c.

Fixpoint lower (s : string) : string :=
  match s with
  | EmptyString => EmptyString
  | String c s' => String (lower_ascii c) (lower s')
  end.

(** The text is ASCII: every character is below 128. *)
Fixpoint is_ascii (s : string) : bool :=
  match s with
  | EmptyString => true
  | String c s' => (N_of_ascii c <? 128)%N && is_ascii s'
  end.

(** Truth value of [d.get(key)] when the value is a string or missing:
    [None] and the empty string are falsy. *)
Definition truthy_str (v : option string) : bool :=
  match v with
  | Some (String _ _) => true
  | _ => false
  end.

(** Truth value of [d.get(key)] when the value is a boolean or missing. *)
Definition truthy_bool (v : option bool) : bool :=
  match v with
  | Some b => b
  | None => false
  end.

(** [datetime]: whole seconds since the epoch, the resolution a JWT
    NumericDate carries.  The store keeps a [datetime] to the millisecond,
    so a time on this clock is read back as it was written. *)
Definition datetime := Z.

(** ** [bson.ObjectId] *)

Module ObjectId.

(** Twelve bytes, kept as the number they spell in base 256. *)
Definition t := N.

Definition hex_val (c : ascii) : option N :=
  let n := N_of_ascii c in
  (if (48 <=? n) && (n <=? 57) then Some (n - 48)
   else if (97 <=? n) && (n <=? 102) then Some (n - 87)
   else if (65 <=? n) && (n <=? 70) then Some (n - 55)
   else None)%N.

(** ASCII whitespace, as [bytes.fromhex] skips it: tab, line feed,
    vertical tab, form feed, carriage return and space. *)
Definition is_space (c : ascii) : bool :=
  let n := N_of_ascii c in
  (((9 <=? n) && (n <=? 13)) || (n =? 32))%N.

(** [bytes.fromhex(s)]: two hexadecimal digits per byte, ASCII whitespace
    skipped before a byte and at the end; [None] stands for [ValueError]. *)
Fixpoint fromhex (s : string) : option (list N) :=
  match s with
  | EmptyString => Some []
  | String c s' =>
      if is_space c then fromhex s'
      else
        match hex_val c, s' with
        | Some top, String c' s'' =>
            match hex_val c' with
            | Some bot =>
                match fromhex s'' with
                | Some bytes => Some ((16 * top + bot)%N :: bytes)
                | None => None
                end
            | None => None
            end
        | _, _ => None
        end
  end.

(** [ObjectId(s)] for a string: the bytes the object holds, [None] for
    the [InvalidId] exception.  A string of 24 characters is accepted when
    [bytes.fromhex] reads it, also when whitespace makes it spell fewer
    than twelve bytes.  A string with a character outside ASCII is refused
    whichever way its length is counted, since [bytes.fromhex] refuses
    it. *)
Definition binary (s : string) : option (list N) :=
  if Nat.eqb (String.length s) 24 then fromhex s else None.

(** The id of twelve bytes a byte string is, if it has twelve bytes:
    the only ids documents carry. *)
Definition of_bytes (bytes : list N) : option t :=
  if Nat.eqb (length bytes) 12
  then Some (fold_left (fun acc b => 256 * acc + b)%N bytes 0%N)
  else None.

(** The document id [ObjectId(s)] is, when it is one: [s] is then 24
    hexadecimal digits. *)
Definition of_str (s : string) : option t :=
  match binary s with
  | Some bytes => of_bytes bytes
  | None => None
  end.

Definition hex_digit (d : N) : ascii :=
  (if d <? 10 then ascii_of_N (48 + d) else ascii_of_N (87 + d))%N.

Fixpoint to_hex (k : nat) (n : N) (acc : string) : string :=
  match k with
  | O => acc
  | S k' => to_hex k' (n / 16)%N (String (hex_digit (n mod 16)%N) acc)
  end.

(** [str(oid)]: 24 lower-case hexadecimal digits. *)
Definition str (o : t) : string := to_hex 24 o "".

Definition eqb (a b : t) : bool := N.eqb a b.

End ObjectId.

(** ** [app/models/order.py] *)

Module OrderStatus.
Inductive t := PENDING | CONFIRMED | PROCESSING | SHIPPED | DELIVERED | CANCELLED.

Definition eqb (a b : t) : bool :=
  match a, b with
  | PENDING, PENDING | CONFIRMED, CONFIRMED | PROCESSING, PROCESSING
  | SHIPPED, SHIPPED | DELIVERED, DELIVERED | CANCELLED, CANCELLED => true
  | _, _ => false
  end.

Definition value (s : t) : string :=
  match s with
  | PENDING => "pending" | CONFIRMED => "confirmed"
  | PROCESSING => "processing" | SHIPPED => "shipped"
  | DELIVERED => "delivered" | CANCELLED => "cancelled"
  end.
End OrderStatus.

Module PaymentStatus.
Inductive t := PENDING | PAID | FAILED | REFUNDED.

Definition value (s : t) : string :=
  match s with
  | PENDING => "pending" | PAID => "paid"
  | FAILED => "failed" | REFUNDED => "refunded"
  end.
End PaymentStatus.

Module PaymentMethod.
Inductive t := CARD | COD | BANK_TRANSFER.

(** The enum mixes in [str]: a member compares equal to its value. *)
Definition value (m : t) : string :=
  match m with
  | CARD => "card" | COD => "cod" | BANK_TRANSFER => "bank"
  end.
End PaymentMethod.

Module OrderItem.
Record t := mk {
  product_id : string;
  name : string;
  price : Z;
  quantity : Z;
  size : string;
  image : string
}.
End OrderItem.

Module ShippingAddress.
Record t := mk {
  first_name : string;
  last_name : string;
  address : string;
  apartment : option string;
  city : string;
  postal_code : option string;
  country : string;
  phone : string
}.
End ShippingAddress.

Module OrderCreate.
Record t := mk {
  items : list OrderItem.t;
  shipping_address : ShippingAddress.t;
  email : string;
  payment_method : PaymentMethod.t;
  shipping_method : string;
  notes : option string
}.
End OrderCreate.

Module OrderUpdate.
Record t := mk {
  status : option OrderStatus.t;
  payment_status : option PaymentStatus.t;
  tracking_number : option string;
  notes : option string
}.
End OrderUpdate.

(** A document of the [orders] collection.  [user_id], [tracking_number]
    and [notes] are [None] when the key is missing or holds [None]. *)
Module Order.
Record t := mk {
  _id : ObjectId.t;
  order_number : string;
  user_id : option string;
  items : list OrderItem.t;
  shipping_address : ShippingAddress.t;
  email : string;
  subtotal : Z;
  shipping_cost : Z;
  total : Z;
  payment_method : PaymentMethod.t;
  payment_status : PaymentStatus.t;
  shipping_method : string;
  status : OrderStatus.t;
  tracking_number : option string;
  notes : option string;
  created_at : datetime;
  updated_at : datetime
}.

(** The field writes of a [$set] update and of dictionary assignment. *)
Definition set_status (v : OrderStatus.t) (o : t) : t :=
  mk (_id o) (order_number o) (user_id o) (items o) (shipping_address o)
     (email o) (subtotal o) (shipping_cost o) (total o) (payment_method o)
     (payment_status o) (shipping_method o) v (tracking_number o) (notes o)
     (created_at o) (updated_at o).

Definition set_payment_status (v : PaymentStatus.t) (o : t) : t :=
  mk (_id o) (order_number o) (user_id o) (items o) (shipping_address o)
     (email o) (subtotal o) (shipping_cost o) (total o) (payment_method o)
     v (shipping_method o) (status o) (tracking_number o) (notes o)
     (created_at o) (updated_at o).

Definition set_tracking_number (v : option string) (o : t) : t :=
  mk (_id o) (order_number o) (user_id o) (items o) (shipping_address o)
     (email o) (subtotal o) (shipping_cost o) (total o) (payment_method o)
     (payment_status o) (shipping_method o) (status o) v (notes o)
     (created_at o) (updated_at o).

Definition set_notes (v : option string) (o : t) : t :=
  mk (_id o) (order_number o) (user_id o) (items o) (shipping_address o)
     (email o) (subtotal o) (shipping_cost o) (total o) (payment_method o)
     (payment_status o) (shipping_method o) (status o) (tracking_number o) v
     (created_at o) (updated_at o).

Definition set_updated_at (v : datetime) (o : t) : t :=
  mk (_id o) (order_number o) (user_id o) (items o) (shipping_address o)
     (email o) (subtotal o) (shipping_cost o) (total o) (payment_method o)
     (payment_status o) (shipping_method o) (status o) (tracking_number o)
     (notes o) (created_at o) v.
End Order.

Module OrderResponse.
Record t := mk {
  id : string;
  order_number : string;
  items : list OrderItem.t;
  shipping_address : ShippingAddress.t;
  email : string;
  subtotal : Z;
  shipping_cost : Z;
  total : Z;
  payment_method : PaymentMethod.t;
  payment_status : PaymentStatus.t;
  shipping_method : string;
  status : OrderStatus.t;
  tracking_number : option string;
  created_at : datetime
}.
End OrderResponse.

(** A document of the [users] collection, with the keys the handlers read.
    [is_active] and [is_admin] are [None] when the key is missing. *)
Module User.
Record t := mk {
  _id : ObjectId.t;
  email : string;
  is_active : option bool;
  is_admin : option bool
}.
End User.

(** ** The document store and the handler monad *)

(** Exceptions a handler can end with.  [HTTPException] is the only one
    the framework turns into a response of its own status code; the others
    are library exceptions ([jose], [bson], [pymongo]); [OverflowError] is
    what the BSON encoder raises for an integer beyond eight bytes. *)
Inductive exn :=
| HTTPException (status_code : Z) (detail : string)
| JWTError
| InvalidId
| DuplicateKeyError
| OverflowError.

Inductive result (A : Type) :=
| Ok (a : A)
| Raise (e : exn).
Arguments Ok {A} a.
Arguments Raise {A} e.

(** [get_database()]: the two collections the core reads and writes. *)
Record database := mkdb {
  orders : list Order.t;
  users : list User.t
}.

(** A handler runs against the store and leaves a store behind, also when
    it raises: writes are not rolled back. *)
Definition handler (A : Type) : Type := database -> result A * database.

Definition ret {A} (a : A) : handler A := fun db => (Ok a, db).

Definition raise {A} (e : exn) : handler A := fun db => (Raise e, db).

Definition bind {A B} (c : handler A) (k : A -> handler B) : handler B :=
  fun db =>
    match c db with
    | (Ok a, db') => k a db'
    | (Raise e, db') => (Raise e, db')
    end.

Notation "'let!' x ':=' c 'in' k" := (bind c (fun x => k))
  (at level 10, x name, c at level 100, k at level 200).

(** [try: c except E: h] for the exceptions selected by [catches]. *)
Definition try_except {A} (c : handler A) (catches : exn -> bool)
    (h : handler A) : handler A :=
  fun db =>
    match c db with
    | (Raise e, db') => if catches e then h db' else (Raise e, db')
    | r => r
    end.

(** [update_one] touches the first document the filter selects. *)
Fixpoint update_first {A} (p : A -> bool) (f : A -> A) (l : list A) : list A :=
  match l with
  | [] => []
  | x :: l' => if p x then f x :: l' else x :: update_first p f l'
  end.

Module orders_collection.

Definition find_one (filter : Order.t -> bool) : handler (option Order.t) :=
  fun db => (Ok (find filter (orders db)), db).

(** An integer BSON can hold: eight bytes, signed. *)
Definition fits_int64 (v : Z) : bool := (- 2 ^ 63 <=? v) && (v <? 2 ^ 63).

(** Every integer of the document can be encoded. *)
Definition encodable (doc : Order.t) : bool :=
  forallb (fun item => fits_int64 (OrderItem.price item)
                       && fits_int64 (OrderItem.quantity item))
          (Order.items doc)
  && fits_int64 (Order.subtotal doc)
  && fits_int64 (Order.shipping_cost doc)
  && fits_int64 (Order.total doc).

(** The driver encodes the document before it sends it: an integer
    beyond eight bytes raises [OverflowError] and nothing is stored.
    [create_indexes] declares [order_number] unique, and [_id] always is:
    an insert that would repeat either raises [DuplicateKeyError]. *)
Definition insert_one (doc : Order.t) : handler ObjectId.t :=
  fun db =>
    if negb (encodable doc) then (Raise OverflowError, db)
    else if existsb (fun o => ObjectId.eqb (Order._id o) (Order._id doc)
                              || String.eqb (Order.order_number o) (Order.order_number doc))
                    (orders db)
    then (Raise DuplicateKeyError, db)
    else (Ok (Order._id doc), mkdb (orders db ++ [doc]) (users db)).

(** Returns [matched_count]. *)
Definition update_one (filter : Order.t -> bool) (set : Order.t -> Order.t)
    : handler Z :=
  fun db =>
    (Ok (if existsb filter (orders db) then 1 else 0),
     mkdb (update_first filter set (orders db)) (users db)).

End orders_collection.

Module users_collection.

Definition find_one (filter : User.t -> bool) : handler (option User.t) :=
  fun db => (Ok (find filter (users db)), db).

End users_collection.

(** Query filters. *)
Definition by_id (oid : ObjectId.t) (o : Order.t) : bool :=
  ObjectId.eqb (Order._id o) oid.

(** The filter [{"_id": ObjectId(s)}]: a document id has twelve bytes, so
    an [ObjectId] of another length selects nothing. *)
Definition by_object_id (bytes : list N) : Order.t -> bool :=
  match ObjectId.of_bytes bytes with
  | Some oid => by_id oid
  | None => fun _ => false
  end.

Definition by_order_number (n : string) (o : Order.t) : bool :=
  String.eqb (Order.order_number o) n.

Definition by_order_number_and_email (n e : string) (o : Order.t) : bool :=
  String.eqb (Order.order_number o) n && String.eqb (Order.email o) e.

Definition user_by_id (oid : ObjectId.t) (u : User.t) : bool :=
  ObjectId.eqb (User._id u) oid.

Definition user_by_object_id (bytes : list N) : User.t -> bool :=
  match ObjectId.of_bytes bytes with
  | Some oid => user_by_id oid
  | None => fun _ => false
  end.

(** ** [app/api/orders.py] *)

(** [generate_order_number]: [timestamp] is today's date as [%y%m%d] and
    [random_part] the six characters drawn by [random.choices]. *)
Definition generate_order_number (timestamp random_part : string) : string :=
  "AJR-" +:+ timestamp +:+ "-" +:+ random_part.

Definition serialize_order (order : Order.t) : OrderResponse.t :=
  {| OrderResponse.id := ObjectId.str (Order._id order);
     OrderResponse.order_number := Order.order_number order;
     OrderResponse.items := Order.items order;
     OrderResponse.shipping_address := Order.shipping_address order;
     OrderResponse.email := Order.email order;
     OrderResponse.subtotal := Order.subtotal order;
     OrderResponse.shipping_cost := Order.shipping_cost order;
     OrderResponse.total := Order.total order;
     OrderResponse.payment_method := Order.payment_method order;
     OrderResponse.payment_status := Order.payment_status order;
     OrderResponse.shipping_method := Order.shipping_method order;
     OrderResponse.status := Order.status order;
     OrderResponse.tracking_number := Order.tracking_number order;
     OrderResponse.created_at := Order.created_at order |}.

(** The document [create_order] builds (lines 53-90), with the [_id] that
    [insert_one] assigns already in its slot. *)
Definition order_doc (timestamp random_part : string) (now : datetime)
    (inserted_id : ObjectId.t) (order_data : OrderCreate.t)
    (current_user : option User.t) : Order.t :=
  let subtotal :=
    sum (map (fun item => OrderItem.price item * OrderItem.quantity item)
             (OrderCreate.items order_data)) in
  let shipping_cost :=
    if String.eqb (OrderCreate.shipping_method order_data) "express" then 3000
    else if 50000 <=? subtotal then 0
    else 1500 in
  let total := subtotal + shipping_cost in
  let payment_method := PaymentMethod.value (OrderCreate.payment_method order_data) in
  let order_doc :=
    {| Order._id := inserted_id;
       Order.order_number := generate_order_number timestamp random_part;
       Order.user_id :=
         match current_user with
         | Some u => Some (ObjectId.str (User._id u))
         | None => None
         end;
       Order.items := OrderCreate.items order_data;
       Order.shipping_address := OrderCreate.shipping_address order_data;
       Order.email := OrderCreate.email order_data;
       Order.subtotal := subtotal;
       Order.shipping_cost := shipping_cost;
       Order.total := total;
       Order.payment_method := OrderCreate.payment_method order_data;
       Order.payment_status :=
         if negb (String.eqb payment_method "cod") then PaymentStatus.PENDING
         else PaymentStatus.PENDING;
       Order.shipping_method := OrderCreate.shipping_method order_data;
       Order.status := OrderStatus.PENDING;
       Order.tracking_number := None;
       Order.notes := OrderCreate.notes order_data;
       Order.created_at := now;
       Order.updated_at := now |} in
  if String.eqb payment_method "card"
  then Order.set_status OrderStatus.CONFIRMED
         (Order.set_payment_status PaymentStatus.PAID order_doc)
  else order_doc.

Definition create_order (timestamp random_part : string) (now : datetime)
    (inserted_id : ObjectId.t) (order_data : OrderCreate.t)
    (current_user : option User.t) : handler OrderResponse.t :=
  let order_doc :=
    order_doc timestamp random_part now inserted_id order_data current_user in
  let! _ := orders_collection.insert_one order_doc in
  ret (serialize_order order_doc).

Definition get_order (order_id : string) (current_user : option User.t)
    : handler OrderResponse.t :=
  let! order :=
    match ObjectId.binary order_id with
    | Some oid => orders_collection.find_one (by_object_id oid)
    | None => orders_collection.find_one (by_order_number order_id)
    end in
  match order with
  | None => raise (HTTPException 404 "Order not found")
  | Some order =>
      match current_user with
      | Some current_user =>
          let user_id := ObjectId.str (User._id current_user) in
          if truthy_str (Order.user_id order)
             && negb (bool_decide (Order.user_id order = Some user_id))
             && negb (truthy_bool (User.is_admin current_user))
          then raise (HTTPException 403 "Not authorized to view this order")
          else ret (serialize_order order)
      | None => ret (serialize_order order)
      end
  end.

Definition track_order (order_number email : string) : handler OrderResponse.t :=
  let! order :=
    orders_collection.find_one (by_order_number_and_email order_number (lower email)) in
  match order with
  | None => raise (HTTPException 404 "Order not found")
  | Some order => ret (serialize_order order)
  end.

(** [update_data]: the non-[None] fields of the patch, then [updated_at]. *)
Definition update_data (order_data : OrderUpdate.t) (now : datetime)
    (o : Order.t) : Order.t :=
  let o := match OrderUpdate.status order_data with
           | Some v => Order.set_status v o | None => o end in
  let o := match OrderUpdate.payment_status order_data with
           | Some v => Order.set_payment_status v o | None => o end in
  let o := match OrderUpdate.tracking_number order_data with
           | Some v => Order.set_tracking_number (Some v) o | None => o end in
  let o := match OrderUpdate.notes order_data with
           | Some v => Order.set_notes (Some v) o | None => o end in
  Order.set_updated_at now o.

Definition update_order (now : datetime) (order_id : string)
    (order_data : OrderUpdate.t) (admin : User.t) : handler OrderResponse.t :=
  match ObjectId.binary order_id with
  | None => raise (HTTPException 400 "Invalid order ID")
  | Some oid =>
      let! matched_count :=
        orders_collection.update_one (by_object_id oid) (update_data order_data now) in
      if matched_count =? 0 then raise (HTTPException 404 "Order not found")
      else
        let! order := orders_collection.find_one (by_object_id oid) in
        match order with
        | Some order => ret (serialize_order order)
        | None => raise (HTTPException 500 "Internal Server Error")
        end
  end.

Definition cancel_order (now : datetime) (order_id : string)
    (current_user : User.t) : handler OrderResponse.t :=
  match ObjectId.binary order_id with
  | None => raise (HTTPException 400 "Invalid order ID")
  | Some oid =>
      let! order := orders_collection.find_one (by_object_id oid) in
      match order with
      | None => raise (HTTPException 404 "Order not found")
      | Some order =>
          let user_id := ObjectId.str (User._id current_user) in
          if negb (bool_decide (Order.user_id order = Some user_id))
             && negb (truthy_bool (User.is_admin current_user))
          then raise (HTTPException 403 "Not authorized")
          else if negb (OrderStatus.eqb (Order.status order) OrderStatus.PENDING
                        || OrderStatus.eqb (Order.status order) OrderStatus.CONFIRMED)
          then raise (HTTPException 400 "Cannot cancel order in current status")
          else
            let! _ :=
              orders_collection.update_one (by_object_id oid)
                (fun o => Order.set_updated_at now
                            (Order.set_status OrderStatus.CANCELLED o)) in
            let! order := orders_collection.find_one (by_object_id oid) in
            match order with
            | Some order => ret (serialize_order order)
            | None => raise (HTTPException 500 "Internal Server Error")
            end
      end
  end.

(** ** [app/api/orders.py], listings and statistics *)

Module OrderListResponse.
Record t := mk {
  orders : list OrderResponse.t;
  total : Z;
  page : Z;
  page_size : Z
}.
End OrderListResponse.

(** [cursor.sort("created_at", -1)]: newest first.  The store promises
    no order among documents with the same [created_at], and may choose
    another one at each query; here they keep their natural order, and
    what is stated of a listing holds for every such choice, or assumes
    the timestamps differ. *)
Fixpoint insert_newest_first (o : Order.t) (l : list Order.t) : list Order.t :=
  match l with
  | [] => [o]
  | x :: l' =>
      if Order.created_at x <=? Order.created_at o then o :: l
      else x :: insert_newest_first o l'
  end.

Definition sort_newest_first (l : list Order.t) : list Order.t :=
  fold_right insert_newest_first [] l.

(** [db.orders.count_documents(query)]. *)
Definition count_documents (query : Order.t -> bool) : handler Z :=
  fun db => (Ok (Z.of_nat (length (List.filter query (orders db)))), db).

(** [db.orders.find(query).sort("created_at", -1).skip(skip).limit(limit)]
    read with [to_list(length=limit)]; [skip] and [limit] are not negative. *)
Definition find_newest_first (query : Order.t -> bool) (skip limit : Z)
    : handler (list Order.t) :=
  fun db =>
    (Ok (firstn (Z.to_nat limit)
           (skipn (Z.to_nat skip) (sort_newest_first (List.filter query (orders db))))),
     db).

Definition by_user_id (user_id : string) (o : Order.t) : bool :=
  bool_decide (Order.user_id o = Some user_id).

(** [get_user_orders]; the framework has checked [page >= 1] and
    [1 <= page_size <= 50] before the body runs. *)
Definition get_user_orders (page page_size : Z) (current_user : User.t)
    : handler OrderListResponse.t :=
  let user_id := ObjectId.str (User._id current_user) in
  let! total := count_documents (by_user_id user_id) in
  let skip := (page - 1) * page_size in
  let! orders := find_newest_first (by_user_id user_id) skip page_size in
  ret {| OrderListResponse.orders := map serialize_order orders;
         OrderListResponse.total := total;
         OrderListResponse.page := page;
         OrderListResponse.page_size := page_size |}.

Definition payment_status_eqb (a b : PaymentStatus.t) : bool :=
  match a, b with
  | PaymentStatus.PENDING, PaymentStatus.PENDING
  | PaymentStatus.PAID, PaymentStatus.PAID
  | PaymentStatus.FAILED, PaymentStatus.FAILED
  | PaymentStatus.REFUNDED, PaymentStatus.REFUNDED => true
  | _, _ => false
  end.

(** The [query] dictionary of [get_all_orders]: a key for each filter
    that is given. *)
Definition all_orders_query (status : option OrderStatus.t)
    (payment_status : option PaymentStatus.t) (o : Order.t) : bool :=
  match status with
  | Some s => OrderStatus.eqb (Order.status o) s
  | None => true
  end
  && match payment_status with
     | Some p => payment_status_eqb (Order.payment_status o) p
     | None => true
     end.

(** [get_all_orders]; the framework has checked [page >= 1] and
    [1 <= page_size <= 100]. *)
Definition get_all_orders (status : option OrderStatus.t)
    (payment_status : option PaymentStatus.t) (page page_size : Z)
    (admin : User.t) : handler OrderListResponse.t :=
  let query := all_orders_query status payment_status in
  let! total := count_documents query in
  let skip := (page - 1) * page_size in
  let! orders := find_newest_first query skip page_size in
  ret {| OrderListResponse.orders := map serialize_order orders;
         OrderListResponse.total := total;
         OrderListResponse.page := page;
         OrderListResponse.page_size := page_size |}.

Module OrderStats.
Record t := mk {
  total_orders : Z;
  orders_by_status : gmap string Z;
  total_revenue : Z;
  pending_orders : Z
}.
End OrderStats.

Definition all_statuses : list OrderStatus.t :=
  [OrderStatus.PENDING; OrderStatus.CONFIRMED; OrderStatus.PROCESSING;
   OrderStatus.SHIPPED; OrderStatus.DELIVERED; OrderStatus.CANCELLED].

Definition has_status (s : OrderStatus.t) (o : Order.t) : bool :=
  OrderStatus.eqb (Order.status o) s.

Definition is_paid (o : Order.t) : bool :=
  payment_status_eqb (Order.payment_status o) PaymentStatus.PAID.

(** The [$group] stage on [$status]: one result per status that occurs,
    with the number of its orders. *)
Definition status_pipeline (l : list Order.t) : list (string * Z) :=
  omap (fun s =>
          let count := Z.of_nat (length (List.filter (has_status s) l)) in
          if 0 <? count then Some (OrderStatus.value s, count) else None)
       all_statuses.

(** The [$match] on paid orders followed by the [$group] that adds up
    [$total]: no result when nothing matches. *)
Definition revenue_pipeline (l : list Order.t) : list Z :=
  match List.filter is_paid l with
  | [] => []
  | paid => [sum (map Order.total paid)]
  end.

(** [db.orders.aggregate(pipeline).to_list(...)]; the pipelines here give
    fewer results than the length asked for. *)
Definition aggregate {A} (pipeline : list Order.t -> list A) : handler (list A) :=
  fun db => (Ok (pipeline (orders db)), db).

Definition get_order_stats (admin : User.t) : handler OrderStats.t :=
  let! total_orders := count_documents (fun _ => true) in
  let! status_result := aggregate status_pipeline in
  let orders_by_status : gmap string Z := list_to_map status_result in
  let! revenue_result := aggregate revenue_pipeline in
  let total_revenue :=
    match revenue_result with
    | r :: _ => r
    | [] => 0
    end in
  let! pending_orders := count_documents (has_status OrderStatus.PENDING) in
  ret {| OrderStats.total_orders := total_orders;
         OrderStats.orders_by_status := orders_by_status;
         OrderStats.total_revenue := total_revenue;
         OrderStats.pending_orders := pending_orders |}.

(** ** [jose.jwt], the token library [security.py] calls *)

Module jose.

(** The JSON values of the claims considered here: strings and integers. *)
Inductive jvalue :=
| JStr (s : string)
| JInt (n : Z).

(** [int(s)] for a string of ASCII text: whitespace around, a sign, then
    decimal digits, single underscores between digits allowed; [None]
    stands for [ValueError]. *)
Definition is_int_space (c : ascii) : bool :=
  let n := N_of_ascii c in
  (((9 <=? n) && (n <=? 13)) || ((28 <=? n) && (n <=? 32)))%N.

Fixpoint lstrip (s : string) : string :=
  match s with
  | String c s' => if is_int_space c then lstrip s' else s
  | EmptyString => EmptyString
  end.

Fixpoint rstrip (s : string) : string :=
  match s with
  | EmptyString => EmptyString
  | String c s' =>
      match rstrip s' with
      | EmptyString => if is_int_space c then EmptyString else String c EmptyString
      | r => String c r
      end
  end.

Definition digit_val (c : ascii) : option Z :=
  let n := N_of_ascii c in
  if ((48 <=? n) && (n <=? 57))%N then Some (Z.of_N n - 48) else None.

Fixpoint digits (s : string) (acc : Z) (after_digit : bool) : option Z :=
  match s with
  | EmptyString => if after_digit then Some acc else None
  | String c s' =>
      match digit_val c with
      | Some d => digits s' (10 * acc + d) true
      | None =>
          if Ascii.eqb c "_" && after_digit then digits s' acc false else None
      end
  end.

Definition int_of_str (s : string) : option Z :=
  match rstrip (lstrip s) with
  | String "+" s' => digits s' 0 false
  | String "-" s' => option_map Z.opp (digits s' 0 false)
  | s' => digits s' 0 false
  end.

(** [int(v)] for the value of a claim. *)
Definition int (v : jvalue) : option Z :=
  match v with
  | JInt n => Some n
  | JStr s => int_of_str s
  end.

(** [_validate_claims] as [jwt.decode] runs it when it is given no
    audience, issuer, subject or access token, at clock [now]: [true] when
    one of the checks raises.  [iat], [nbf] and [exp] must read as
    integers, [nbf] must not lie ahead and [exp] not behind; an [aud] or
    [at_hash] claim has nothing to be compared with; [sub] and [jti] must
    be strings. *)
Definition claims_refused (now : Z) (claims : gmap string jvalue) : bool :=
  let bad_iat :=
    match claims !! "iat" with
    | None => false
    | Some v => match int v with Some _ => false | None => true end
    end in
  let bad_nbf :=
    match claims !! "nbf" with
    | None => false
    | Some v => match int v with Some nbf => now <? nbf | None => true end
    end in
  let expired :=
    match claims !! "exp" with
    | None => false
    | Some v => match int v with Some exp => exp <? now | None => true end
    end in
  let bad_aud :=
    match claims !! "aud" with Some _ => true | None => false end in
  let bad_sub :=
    match claims !! "sub" with
    | None | Some (JStr _) => false
    | Some (JInt _) => true
    end in
  let bad_jti :=
    match claims !! "jti" with
    | None | Some (JStr _) => false
    | Some (JInt _) => true
    end in
  let bad_at_hash :=
    match claims !! "at_hash" with Some _ => true | None => false end in
  bad_iat || bad_nbf || expired || bad_aud || bad_sub || bad_jti || bad_at_hash.

(** The middle segment of a compact token, once base64-decoded. *)
Inductive payload :=
| JsonObject (claims : gmap string jvalue)
| NotJsonObject (raw : string).

Section jwt.
(** The MAC of the configured algorithm: any function of key, algorithm
    and signing input. *)
Context {Tag : Type} `{EqDecision Tag}.
Variable sign : string -> string -> payload -> Tag.

(** A compact token that splits into its three segments, or a string
    that does not. *)
Inductive token :=
| Compact (alg : string) (body : payload) (signature : Tag)
| NotCompact (raw : string).

(** [jwt.encode(claims, key, algorithm)]. *)
Definition encode (claims : gmap string jvalue) (key algorithm : string)
    : token :=
  Compact algorithm (JsonObject claims) (sign key algorithm (JsonObject claims)).

(** [jwt.decode(token, key, algorithms)] read at clock [now]: the
    algorithm and the signature, then the payload, then its claims.
    Every failure is a [JWTError] (or a subclass). *)
Definition decode (now : Z) (tok : token) (key : string)
    (algorithms : list string) : result (gmap string jvalue) :=
  match tok with
  | NotCompact _ => Raise JWTError
  | Compact alg body signature =>
      if negb (existsb (String.eqb alg) algorithms) then Raise JWTError
      else if negb (bool_decide (sign key alg body = signature))
      then Raise JWTError
      else
        match body with
        | NotJsonObject _ => Raise JWTError
        | JsonObject claims =>
            if claims_refused now claims then Raise JWTError else Ok claims
        end
  end.
End jwt.

End jose.

(** ** [app/core/config.py], the JWT settings *)

Module settings.
Definition SECRET_KEY : string := "ajrak-secret-key-2025-luxury-fashion".
Definition ALGORITHM : string := "HS256".
Definition ACCESS_TOKEN_EXPIRE_MINUTES : Z := 60.
End settings.

(** ** [app/core/security.py] *)

Section security.
Context {Tag : Type} `{EqDecision Tag}.
Variable sign : string -> string -> jose.payload -> Tag.

(** [timedelta(minutes=m)] in seconds. *)
Definition minutes (m : Z) : Z := 60 * m.

(** [expires_delta] is a [timedelta] in seconds; a zero [timedelta] is
    falsy, like [None]. *)
Definition create_access_token (now : datetime) (data : gmap string jose.jvalue)
    (expires_delta : option Z) : jose.token (Tag := Tag) :=
  let to_encode := data in
  let expire :=
    match expires_delta with
    | Some d => if d =? 0 then now + minutes settings.ACCESS_TOKEN_EXPIRE_MINUTES
                else now + d
    | None => now + minutes settings.ACCESS_TOKEN_EXPIRE_MINUTES
    end in
  let to_encode := <["exp" := jose.JInt expire]> to_encode in
  jose.encode sign to_encode settings.SECRET_KEY settings.ALGORITHM.

Definition credentials_exception : exn :=
  HTTPException 401 "Could not validate credentials".

(** The [try] block of [get_current_user] (lines 47-53): the subject a
    token names, or [credentials_exception]. *)
Definition token_subject (now : datetime) (token : jose.token (Tag := Tag))
    : result jose.jvalue :=
  match jose.decode sign now token settings.SECRET_KEY [settings.ALGORITHM] with
  | Ok payload =>
      match payload !! "sub" with
      | None => Raise credentials_exception
      | Some user_id => Ok user_id
      end
  | Raise JWTError => Raise credentials_exception
  | Raise e => Raise e
  end.

(** [not token]: no bearer credential, or an empty one. *)
Definition no_token (token : option (jose.token (Tag := Tag))) : bool :=
  match token with
  | None | Some (jose.NotCompact "") => true
  | Some _ => false
  end.

Definition get_current_user (now : datetime)
    (token : option (jose.token (Tag := Tag))) : handler (option User.t) :=
  match token with
  | None => ret None
  | Some tok =>
      if no_token token then ret None
      else
        match token_subject now tok with
        | Raise e => raise e
        | Ok (jose.JInt _) => raise InvalidId
        | Ok (jose.JStr user_id) =>
            match ObjectId.binary user_id with
            | None => raise InvalidId
            | Some oid =>
                let! user := users_collection.find_one (user_by_object_id oid) in
                match user with
                | None => raise credentials_exception
                | Some user => ret (Some user)
                end
            end
        end
  end.

Definition is_HTTPException (e : exn) : bool :=
  match e with
  | HTTPException _ _ => true
  | _ => false
  end.

Definition get_current_user_optional (now : datetime)
    (token : option (jose.token (Tag := Tag))) : handler (option User.t) :=
  if no_token token then ret None
  else try_except (get_current_user now token) is_HTTPException (ret None).

(** [current_user.get("is_active", True)]. *)
Definition is_active_or_default (u : User.t) : bool :=
  match User.is_active u with
  | Some b => b
  | None => true
  end.

Definition get_current_active_user (current_user : option User.t)
    : handler User.t :=
  match current_user with
  | None => raise (HTTPException 401 "Not authenticated")
  | Some current_user =>
      if negb (is_active_or_default current_user)
      then raise (HTTPException 400 "Inactive user")
      else ret current_user
  end.

Definition get_admin_user (current_user : User.t) : handler User.t :=
  if negb (truthy_bool (User.is_admin current_user))
  then raise (HTTPException 403 "Not enough permissions")
  else ret current_user.

End security.

(** ** The dependency chains the routes declare with [Depends] *)

Section routes.
Context {Tag : Type} `{EqDecision Tag}.
Variable sign : string -> string -> jose.payload -> Tag.

(** [Depends(get_current_active_user)], itself on [Depends(get_current_user)]. *)
Definition depends_active_user (now : datetime)
    (token : option (jose.token (Tag := Tag))) : handler User.t :=
  let! current_user := get_current_user sign now token in
  get_current_active_user current_user.

(** [Depends(get_admin_user)], itself on [Depends(get_current_active_user)]. *)
Definition depends_admin_user (now : datetime)
    (token : option (jose.token (Tag := Tag))) : handler User.t :=
  let! current_user := depends_active_user now token in
  get_admin_user current_user.

(** [POST /orders]. *)
Definition post_orders (timestamp random_part : string) (now : datetime)
    (inserted_id : ObjectId.t) (token : option (jose.token (Tag := Tag)))
    (order_data : OrderCreate.t) : handler OrderResponse.t :=
  let! current_user := get_current_user_optional sign now token in
  create_order timestamp random_part now inserted_id order_data current_user.

(** [GET /orders/{order_id}]. *)
Definition get_orders_id (now : datetime)
    (token : option (jose.token (Tag := Tag))) (order_id : string)
    : handler OrderResponse.t :=
  let! current_user := get_current_user_optional sign now token in
  get_order order_id current_user.

(** [PUT /orders/{order_id}]. *)
Definition put_orders_id (now : datetime)
    (token : option (jose.token (Tag := Tag))) (order_id : string)
    (order_data : OrderUpdate.t) : handler OrderResponse.t :=
  let! admin := depends_admin_user now token in
  update_order now order_id order_data admin.

(** [POST /orders/{order_id}/cancel]. *)
Definition post_orders_id_cancel (now : datetime)
    (token : option (jose.token (Tag := Tag))) (order_id : string)
    : handler OrderResponse.t :=
  let! current_user := depends_active_user now token in
  cancel_order now order_id current_user.

(** The token [login] hands out for a user (auth.py, lines 83-86). *)
Definition login_token (now : datetime) (user : User.t)
    : jose.token (Tag := Tag) :=
  create_access_token sign now
    {["sub" := jose.JStr (ObjectId.str (User._id user))]}
    (Some (minutes settings.ACCESS_TOKEN_EXPIRE_MINUTES)).

End routes.

(** * Vocabulary of the specification and sample data *)

(** Σ(item.price × item.quantity), by recursion over the line items. *)
Fixpoint items_total (items : list OrderItem.t) : Z :=
  match items with
  | [] => 0
  | item :: rest => OrderItem.price item * OrderItem.quantity item + items_total rest
  end.

(** The error taxonomy, as the exceptions the order handlers raise. *)
Definition NotFound : exn := HTTPException 404 "Order not found".
Definition Forbidden_view : exn := HTTPException 403 "Not authorized to view this order".
Definition Forbidden_cancel : exn := HTTPException 403 "Not authorized".
Definition InvalidTransition : exn := HTTPException 400 "Cannot cancel order in current status".
Definition InvalidOrderId : exn := HTTPException 400 "Invalid order ID".

(** The caller is the owner the order records. *)
Definition is_owner (u : User.t) (o : Order.t) : Prop :=
  Order.user_id o = Some (ObjectId.str (User._id u)).

(** The caller carries the admin flag. *)
Definition has_admin_flag (u : User.t) : Prop :=
  User.is_admin u = Some true.

(** The insert of [doc] violates a unique index of the collection. *)
Definition duplicate_key (doc : Order.t) (db : database) : bool :=
  existsb (fun o => ObjectId.eqb (Order._id o) (Order._id doc)
                    || String.eqb (Order.order_number o) (Order.order_number doc))
          (orders db).

(** Sample requests, used to run the handlers on concrete inputs. *)
Definition sample_address : ShippingAddress.t :=
  ShippingAddress.mk "Sana" "Shah" "12 Canal Road" None "Lahore" None "Pakistan" "0300".

Definition sample_item (price quantity : Z) : OrderItem.t :=
  OrderItem.mk "p-1" "Ajrak shawl" price quantity "M" "shawl.jpg".

Definition empty_cart_request : OrderCreate.t :=
  OrderCreate.mk [] sample_address "sana@example.com" PaymentMethod.COD "standard" None.

Definition empty_db : database := mkdb [] [].

(** The two field writes of the [$set] in [cancel_order]. *)
Definition cancelled (now : datetime) (o : Order.t) : Order.t :=
  Order.set_updated_at now (Order.set_status OrderStatus.CANCELLED o).

(** Sample callers and a sample stored order. *)
Definition customer : User.t :=
  User.mk 7%N "sana@example.com" (Some true) (Some false).

Definition other_customer : User.t :=
  User.mk 8%N "bilal@example.com" (Some true) (Some false).

Definition admin_user : User.t :=
  User.mk 9%N "admin@example.com" (Some true) (Some true).

Definition stored_order (oid : ObjectId.t) (owner : option string)
    (status : OrderStatus.t) : Order.t :=
  Order.mk oid "AJR-250101-ABC123" owner [sample_item 2500 2] sample_address
    "sana@example.com" 5000 1500 6500 PaymentMethod.COD PaymentStatus.PENDING
    "standard" status None None 1700000000 1700000000.

Definition order_id_1 : string := "000000000000000000000001".

Definition empty_patch : OrderUpdate.t := OrderUpdate.mk None None None None.

(** The order [get_order] fetches: by internal id when [ObjectId] accepts
    the identifier, by order number when it refuses it. *)
Definition fetched (order_id : string) (db : database) : option Order.t :=
  match ObjectId.binary order_id with
  | Some oid => find (by_object_id oid) (orders db)
  | None => find (by_order_number order_id) (orders db)
  end.

Definition mixed_case_request : OrderCreate.t :=
  OrderCreate.mk [sample_item 2500 2] sample_address "Sana@Example.com"
    PaymentMethod.COD "standard" None.

(** A stand-in MAC for running the token functions on examples. *)
Definition toy_sign (key algorithm : string) (body : jose.payload) : string :=
  key +:+ "." +:+ algorithm +:+ "."
  +:+ match body with
      | jose.JsonObject claims =>
          match claims !! "sub" with
          | Some (jose.JStr s) => s
          | _ => ""
          end
      | jose.NotJsonObject raw => raw
      end.

(** Two responses for the same order in the same state: every field but
    [created_at].  The time a handler reads back is the one the store
    keeps, to the millisecond; the time [create_order] answers is the one
    it took from the clock. *)
Definition same_order_response (r r' : OrderResponse.t) : Prop :=
  OrderResponse.id r' = OrderResponse.id r
  /\ OrderResponse.order_number r' = OrderResponse.order_number r
  /\ OrderResponse.items r' = OrderResponse.items r
  /\ OrderResponse.shipping_address r' = OrderResponse.shipping_address r
  /\ OrderResponse.email r' = OrderResponse.email r
  /\ OrderResponse.subtotal r' = OrderResponse.subtotal r
  /\ OrderResponse.shipping_cost r' = OrderResponse.shipping_cost r
  /\ OrderResponse.total r' = OrderResponse.total r
  /\ OrderResponse.payment_method r' = OrderResponse.payment_method r
  /\ OrderResponse.payment_status r' = OrderResponse.payment_status r
  /\ OrderResponse.shipping_method r' = OrderResponse.shipping_method r
  /\ OrderResponse.status r' = OrderResponse.status r
  /\ OrderResponse.tracking_number r' = OrderResponse.tracking_number r.

(** The snapshot part of an order: the fields no handler rewrites. *)
Definition same_snapshot (o o' : Order.t) : Prop :=
  Order._id o' = Order._id o
  /\ Order.order_number o' = Order.order_number o
  /\ Order.user_id o' = Order.user_id o
  /\ Order.items o' = Order.items o
  /\ Order.shipping_address o' = Order.shipping_address o
  /\ Order.email o' = Order.email o
  /\ Order.subtotal o' = Order.subtotal o
  /\ Order.shipping_cost o' = Order.shipping_cost o
  /\ Order.total o' = Order.total o
  /\ Order.payment_method o' = Order.payment_method o
  /\ Order.shipping_method o' = Order.shipping_method o
  /\ Order.created_at o' = Order.created_at o.

(** A patch that sets the status and nothing else. *)
Definition status_patch (s : OrderStatus.t) : OrderUpdate.t :=
  OrderUpdate.mk (Some s) None None None.

Definition sample_request : OrderCreate.t :=
  OrderCreate.mk [sample_item 2500 2; sample_item 900 1] sample_address
    "sana@example.com" PaymentMethod.CARD "standard" (Some "ring the bell").

Definition sample_store : database :=
  mkdb [stored_order 1%N (Some (ObjectId.str 7%N)) OrderStatus.PENDING]
       [customer; other_customer; admin_user].

(** The requests the order routes serve, with the values the handler
    reads from the clock, the random source and the store driver. *)
Inductive request :=
| CreateOrder (timestamp random_part : string) (now : datetime)
    (inserted_id : ObjectId.t) (order_data : OrderCreate.t)
    (current_user : option User.t)
| GetUserOrders (page page_size : Z) (current_user : User.t)
| GetOrder (order_id : string) (current_user : option User.t)
| TrackOrder (order_number email : string)
| GetAllOrders (status : option OrderStatus.t)
    (payment_status : option PaymentStatus.t) (page page_size : Z) (admin : User.t)
| UpdateOrder (now : datetime) (order_id : string) (order_data : OrderUpdate.t)
    (admin : User.t)
| CancelOrder (now : datetime) (order_id : string) (current_user : User.t)
| GetOrderStats (admin : User.t).

(** The store a request leaves behind. *)
Definition serve (r : request) (db : database) : database :=
  match r with
  | CreateOrder timestamp random_part now inserted_id order_data current_user =>
      snd (create_order timestamp random_part now inserted_id order_data current_user db)
  | GetUserOrders page page_size current_user =>
      snd (get_user_orders page page_size current_user db)
  | GetOrder order_id current_user => snd (get_order order_id current_user db)
  | TrackOrder order_number email => snd (track_order order_number email db)
  | GetAllOrders status payment_status page page_size admin =>
      snd (get_all_orders status payment_status page page_size admin db)
  | UpdateOrder now order_id order_data admin =>
      snd (update_order now order_id order_data admin db)
  | CancelOrder now order_id current_user =>
      snd (cancel_order now order_id current_user db)
  | GetOrderStats admin => snd (get_order_stats admin db)
  end.

Definition serve_all (rs : list request) (db : database) : database :=
  fold_left (fun db r => serve r db) rs db.

(** The amounts of an order agree with its items and with each other,
    and its owner, if any, is a user id in its 24-digit spelling. *)
Definition consistent_order (o : Order.t) : Prop :=
  Order.subtotal o = items_total (Order.items o)
  /\ Order.total o = Order.subtotal o + Order.shipping_cost o
  /\ (Order.shipping_cost o = 0 \/ Order.shipping_cost o = 1500
      \/ Order.shipping_cost o = 3000)
  /\ (Order.user_id o = None
      \/ exists uid, Order.user_id o = Some (ObjectId.str uid)).

Definition store_invariant (db : database) : Prop :=
  NoDup (map Order._id (orders db))
  /\ NoDup (map Order.order_number (orders db))
  /\ Forall consistent_order (orders db).

(** [db'] holds the orders of [db], in place and with their snapshot
    fields, followed by new ones; the users are the same. *)
Definition extends (db db' : database) : Prop :=
  exists old added : list Order.t,
    orders db' = (old ++ added)%list
    /\ Forall2 same_snapshot (orders db) old
    /\ users db' = users db.

(** What a handler answers, when it does. *)
Definition answer {A} (r : result A * database) : option A :=
  match fst r with
  | Ok a => Some a
  | Raise _ => None
  end.

(** The orders a listing answers, none when it raises. *)
Definition listed (r : result OrderListResponse.t * database) : list OrderResponse.t :=
  match answer r with
  | Some resp => OrderListResponse.orders resp
  | None => []
  end.

(** A list of orders runs from the newest to the oldest. *)
Definition newest_first (l : list Order.t) : Prop :=
  StronglySorted (fun a b => Order.created_at b <= Order.created_at a) l.

(** Page numbers [1], ..., [n]. *)
Definition pages (n : nat) : list Z := map (fun i => Z.of_nat i + 1) (seq 0 n).

(** The number of orders in a status. *)
Definition status_count (s : OrderStatus.t) (l : list Order.t) : Z :=
  Z.of_nat (length (List.filter (has_status s) l)).

#[local] Instance OrderStatus_eq_dec : EqDecision OrderStatus.t.
Proof. solve_decision. Defined.

(** * Properties *)

(** ** Helper lemmas *)

Lemma fold_left_add_shift (xs : list Z) (a : Z) :
  fold_left Z.add xs a = a + fold_left Z.add xs 0.
Proof.
  revert a. induction xs as [|x xs IH]; intros a; simpl.
  - lia.
  - rewrite (IH (a + x)), (IH (0 + x)). lia.
Qed.

Lemma sum_cons (x : Z) (xs : list Z) : sum (x :: xs) = x + sum xs.
Proof. unfold sum. simpl. apply fold_left_add_shift. Qed.

Lemma sum_line_items (items : list OrderItem.t) :
  sum (map (fun item => OrderItem.price item * OrderItem.quantity item) items)
  = items_total items.
Proof.
  induction items as [|item rest IH]; [reflexivity|].
  simpl map. rewrite sum_cons, IH. reflexivity.
Qed.

(** What [create_order] does to the store, in one equation. *)
Lemma create_order_run timestamp random_part now inserted_id order_data
    current_user db :
  let doc := order_doc timestamp random_part now inserted_id order_data current_user in
  create_order timestamp random_part now inserted_id order_data current_user db
  = if negb (orders_collection.encodable doc) then (Raise OverflowError, db)
    else if duplicate_key doc db then (Raise DuplicateKeyError, db)
    else (Ok (serialize_order doc), mkdb (orders db ++ [doc]) (users db)).
Proof.
  intros doc. unfold create_order, bind, orders_collection.insert_one.
  fold doc. unfold duplicate_key.
  destruct (negb (orders_collection.encodable doc)); [reflexivity|].
  destruct (existsb _ _); reflexivity.
Qed.

(** What a successful [create_order] did. *)
Lemma create_order_ok timestamp random_part now inserted_id order_data
    current_user db resp db' :
  create_order timestamp random_part now inserted_id order_data current_user db
    = (Ok resp, db') ->
  let doc := order_doc timestamp random_part now inserted_id order_data current_user in
  duplicate_key doc db = false
  /\ resp = serialize_order doc
  /\ db' = mkdb (orders db ++ [doc]) (users db).
Proof.
  intros Hrun doc.
  pose proof (create_order_run timestamp random_part now inserted_id order_data
                current_user db) as Heq.
  cbv zeta in Heq. fold doc in Heq. rewrite Heq in Hrun.
  destruct (negb (orders_collection.encodable doc)); [discriminate|].
  destruct (duplicate_key doc db); [discriminate|].
  injection Hrun as <- <-. repeat split.
Qed.

Lemma order_doc_items timestamp random_part now inserted_id order_data current_user :
  Order.items (order_doc timestamp random_part now inserted_id order_data current_user)
  = OrderCreate.items order_data.
Proof.
  unfold order_doc.
  destruct (String.eqb (PaymentMethod.value _) "card"); reflexivity.
Qed.

Lemma order_doc_subtotal timestamp random_part now inserted_id order_data current_user :
  Order.subtotal (order_doc timestamp random_part now inserted_id order_data current_user)
  = items_total (OrderCreate.items order_data).
Proof.
  unfold order_doc. rewrite sum_line_items.
  destruct (String.eqb (PaymentMethod.value _) "card"); reflexivity.
Qed.

Lemma order_doc_shipping_cost timestamp random_part now inserted_id order_data current_user :
  Order.shipping_cost (order_doc timestamp random_part now inserted_id order_data current_user)
  = if String.eqb (OrderCreate.shipping_method order_data) "express" then 3000
    else if 50000 <=? items_total (OrderCreate.items order_data) then 0
    else 1500.
Proof.
  unfold order_doc. rewrite sum_line_items.
  destruct (String.eqb (PaymentMethod.value _) "card"); reflexivity.
Qed.

Lemma order_doc_total timestamp random_part now inserted_id order_data current_user :
  let doc := order_doc timestamp random_part now inserted_id order_data current_user in
  Order.total doc = Order.subtotal doc + Order.shipping_cost doc.
Proof.
  unfold order_doc.
  destruct (String.eqb (PaymentMethod.value _) "card"); reflexivity.
Qed.

(** ** Checkout totals *)

(** C1. For every list of line items and every shipping method, the
    order [create_order] creates has [subtotal] equal to the sum over the
    items of price times quantity; [shipping_cost] is 3000 for the express
    method (decided before the threshold), else 0 when the subtotal
    reaches 50000, else 1500; [total = subtotal + shipping_cost]; and the
    shipping cost is one of 0, 1500, 3000.  The amounts are those of the
    response the handler gives and of the document it has stored. *)
Theorem create_order_totals timestamp random_part now inserted_id order_data
    current_user db :
  let subtotal := items_total (OrderCreate.items order_data) in
  let shipping_cost :=
    if bool_decide (OrderCreate.shipping_method order_data = "express") then 3000
    else if bool_decide (50000 <= subtotal) then 0
    else 1500 in
  (shipping_cost = 0 \/ shipping_cost = 1500 \/ shipping_cost = 3000)
  /\ (forall resp db',
       create_order timestamp random_part now inserted_id order_data current_user db
         = (Ok resp, db') ->
       OrderResponse.subtotal resp = subtotal
       /\ OrderResponse.shipping_cost resp = shipping_cost
       /\ OrderResponse.total resp = subtotal + shipping_cost
       /\ OrderResponse.items resp = OrderCreate.items order_data
       /\ exists stored,
            orders db' = (orders db ++ [stored])%list
            /\ OrderResponse.id resp = ObjectId.str (Order._id stored)
            /\ Order.items stored = OrderCreate.items order_data
            /\ Order.subtotal stored = subtotal
            /\ Order.shipping_cost stored = shipping_cost
            /\ Order.total stored = subtotal + shipping_cost).
Proof.
  intros subtotal shipping_cost.
  split; [unfold shipping_cost; repeat case_bool_decide; lia|].
  intros resp db' Hrun.
  destruct (create_order_ok _ _ _ _ _ _ _ _ _ Hrun) as (_ & -> & ->).
  set (doc := order_doc timestamp random_part now inserted_id order_data current_user).
  assert (Hsub : Order.subtotal doc = subtotal) by apply order_doc_subtotal.
  assert (Hship : Order.shipping_cost doc = shipping_cost).
  { unfold doc, shipping_cost. rewrite order_doc_shipping_cost. fold subtotal.
    destruct (String.eqb_spec (OrderCreate.shipping_method order_data) "express") as [He|He].
    - rewrite bool_decide_eq_true_2 by exact He. reflexivity.
    - rewrite bool_decide_eq_false_2 by exact He.
      destruct (Z.leb_spec 50000 subtotal).
      + rewrite bool_decide_eq_true_2 by assumption. reflexivity.
      + rewrite bool_decide_eq_false_2 by lia. reflexivity. }
  assert (Htot : Order.total doc = subtotal + shipping_cost).
  { unfold doc. rewrite order_doc_total. fold doc. rewrite Hsub, Hship. reflexivity. }
  assert (Hitems : Order.items doc = OrderCreate.items order_data)
    by apply order_doc_items.
  cbn [serialize_order OrderResponse.subtotal OrderResponse.shipping_cost
       OrderResponse.total OrderResponse.items OrderResponse.id orders].
  split; [exact Hsub|]. split; [exact Hship|]. split; [exact Htot|].
  split; [exact Hitems|].
  exists doc. repeat split; assumption.
Qed.

Lemma create_order_totals_witness :
  exists resp db',
    create_order "250102" "XYZ789" 1700000300 2%N sample_request (Some customer)
      sample_store = (Ok resp, db')
    /\ OrderResponse.subtotal resp = 5900
    /\ OrderResponse.shipping_cost resp = 1500
    /\ OrderResponse.total resp = 7400.
Proof.
  eexists. eexists. split; [reflexivity|].
  destruct (proj2 (create_order_totals "250102" "XYZ789" 1700000300 2%N sample_request
                     (Some customer) sample_store) _ _ eq_refl)
    as (Hsub & Hship & Htot & _).
  split; [exact Hsub|]. split; [exact Hship | exact Htot].
Defined.

(** ** Payment at creation *)

(** C2. For every order-creation request: with payment method [card] the
    created order has [payment_status = paid] and [status = confirmed];
    with [cod] or [bank] it has [payment_status = pending] and
    [status = pending].  This is so of the document the handler builds, of
    the response it gives and of the order it has stored whenever the
    creation succeeds: no branch leaves a card order pending or failed. *)
Theorem create_order_payment_state timestamp random_part now inserted_id
    order_data current_user db :
  let doc := order_doc timestamp random_part now inserted_id order_data current_user in
  (forall resp db',
     create_order timestamp random_part now inserted_id order_data current_user db
       = (Ok resp, db') ->
     resp = serialize_order doc
     /\ exists stored,
          orders db' = (orders db ++ [stored])%list
          /\ OrderResponse.id resp = ObjectId.str (Order._id stored)
          /\ Order.payment_method stored = OrderCreate.payment_method order_data
          /\ Order.payment_status stored = Order.payment_status doc
          /\ Order.status stored = Order.status doc)
  /\ match OrderCreate.payment_method order_data with
     | PaymentMethod.CARD =>
         Order.payment_status doc = PaymentStatus.PAID
         /\ Order.status doc = OrderStatus.CONFIRMED
         /\ OrderResponse.payment_status (serialize_order doc) = PaymentStatus.PAID
         /\ OrderResponse.status (serialize_order doc) = OrderStatus.CONFIRMED
     | PaymentMethod.COD | PaymentMethod.BANK_TRANSFER =>
         Order.payment_status doc = PaymentStatus.PENDING
         /\ Order.status doc = OrderStatus.PENDING
         /\ OrderResponse.payment_status (serialize_order doc) = PaymentStatus.PENDING
         /\ OrderResponse.status (serialize_order doc) = OrderStatus.PENDING
     end.
Proof.
  intros doc. split.
  - intros resp db' Hrun.
    destruct (create_order_ok _ _ _ _ _ _ _ _ _ Hrun) as (_ & -> & ->).
    fold doc. split; [reflexivity|].
    exists doc. cbn [orders]. repeat split.
    unfold doc, order_doc.
    destruct (OrderCreate.payment_method order_data); reflexivity.
  - unfold doc, order_doc.
    destruct (OrderCreate.payment_method order_data); simpl; repeat split.
Qed.

Lemma create_order_payment_state_witness :
  exists resp db' stored,
    create_order "250102" "XYZ789" 1700000300 2%N sample_request (Some customer)
      sample_store = (Ok resp, db')
    /\ orders db' = (orders sample_store ++ [stored])%list
    /\ OrderResponse.payment_status resp = PaymentStatus.PAID
    /\ OrderResponse.status resp = OrderStatus.CONFIRMED
    /\ Order.payment_status stored = PaymentStatus.PAID
    /\ Order.status stored = OrderStatus.CONFIRMED.
Proof.
  destruct (create_order_payment_state "250102" "XYZ789" 1700000300 2%N sample_request
              (Some customer) sample_store) as [Hrun Hcard].
  destruct (Hrun _ _ eq_refl) as (Hresp & stored & Hdb & _ & _ & Hpay & Hst).
  destruct Hcard as (Hp & Hs & Hrp & Hrs).
  eexists. eexists. exists stored. split; [reflexivity|].
  split; [exact Hdb|]. rewrite Hpay, Hst.
  repeat split; assumption.
Defined.

(** ** Empty carts *)

(** C5, as the claim states it, fails: an order-creation request with an
    empty items list is accepted, and an order is stored. *)
Lemma create_order_empty_items_accepted :
  OrderCreate.items empty_cart_request = []
  /\ exists resp doc,
       create_order "250101" "ABC123" 1700000000 1%N empty_cart_request None empty_db
       = (Ok resp, mkdb [doc] [])
       /\ OrderResponse.total resp = 1500.
Proof.
  split; [reflexivity|].
  eexists. eexists. split; reflexivity.
Qed.

(** C5, amended.  [create_order] does not validate that the cart is
    non-empty: for every request whose items list is empty, no validation
    or caller error is raised; unless the store rejects the insert for a
    duplicate key, the order is created, with subtotal 0, shipping cost
    3000 for the express method and 1500 otherwise, and total equal to the
    shipping cost. *)
Theorem create_order_empty_items timestamp random_part now inserted_id
    order_data current_user db :
  OrderCreate.items order_data = [] ->
  let doc := order_doc timestamp random_part now inserted_id order_data current_user in
  create_order timestamp random_part now inserted_id order_data current_user db
    = (if duplicate_key doc db then (Raise DuplicateKeyError, db)
       else (Ok (serialize_order doc), mkdb (orders db ++ [doc]) (users db)))
  /\ Order.items doc = []
  /\ Order.subtotal doc = 0
  /\ Order.shipping_cost doc
     = (if bool_decide (OrderCreate.shipping_method order_data = "express")
        then 3000 else 1500)
  /\ Order.total doc = Order.shipping_cost doc.
Proof.
  intros Hempty doc.
  assert (Hfits : orders_collection.encodable doc = true).
  { unfold orders_collection.encodable, doc.
    rewrite order_doc_items, order_doc_total, order_doc_subtotal,
      order_doc_shipping_cost, Hempty.
    cbn [forallb items_total andb].
    destruct (String.eqb _ "express"); reflexivity. }
  split.
  { pose proof (create_order_run timestamp random_part now inserted_id order_data
                  current_user db) as Hrun. cbv zeta in Hrun. fold doc in Hrun.
    rewrite Hrun, Hfits. reflexivity. }
  assert (Hsub : Order.subtotal doc = 0).
  { unfold doc. rewrite order_doc_subtotal, Hempty. reflexivity. }
  split.
  { unfold doc, order_doc. rewrite Hempty.
    destruct (String.eqb (PaymentMethod.value _) "card"); reflexivity. }
  split; [exact Hsub|]. split.
  - unfold doc. rewrite order_doc_shipping_cost, Hempty. simpl items_total.
    destruct (String.eqb_spec (OrderCreate.shipping_method order_data) "express") as [He|He].
    + rewrite bool_decide_eq_true_2 by exact He. reflexivity.
    + rewrite bool_decide_eq_false_2 by exact He. reflexivity.
  - pose proof (order_doc_total timestamp random_part now inserted_id
                  order_data current_user) as Ht.
    cbv zeta in Ht. fold doc in Ht. rewrite Ht, Hsub. lia.
Qed.

Lemma create_order_empty_items_witness :
  OrderCreate.items empty_cart_request = []
  /\ create_order "250101" "ABC123" 1700000000 1%N empty_cart_request None empty_db
     = (Ok (serialize_order
              (order_doc "250101" "ABC123" 1700000000 1%N empty_cart_request None)),
        mkdb [order_doc "250101" "ABC123" 1700000000 1%N empty_cart_request None] []).
Proof.
  split; [reflexivity|].
  exact (proj1 (create_order_empty_items "250101" "ABC123" 1700000000 1%N
                  empty_cart_request None empty_db eq_refl)).
Defined.

(** ** Cancelling an order *)

Lemma find_update_first_same {A} (p : A -> bool) (f : A -> A) (l : list A) :
  (forall x, p (f x) = p x) ->
  find p (update_first p f l) = option_map f (find p l).
Proof.
  intros Hp. induction l as [|x l IH]; [reflexivity|].
  simpl. destruct (p x) eqn:Hx; simpl.
  - rewrite Hp, Hx. reflexivity.
  - rewrite Hx. exact IH.
Qed.

Lemma find_update_first_other {A} (p q : A -> bool) (f : A -> A) (l : list A) :
  (forall x, p x = true -> q x = false) ->
  (forall x, q (f x) = q x) ->
  find q (update_first p f l) = find q l.
Proof.
  intros Hpq Hq. induction l as [|x l IH]; [reflexivity|].
  simpl. destruct (p x) eqn:Hx; simpl.
  - rewrite Hq, (Hpq x Hx). reflexivity.
  - rewrite IH. reflexivity.
Qed.

Lemma length_update_first {A} (p : A -> bool) (f : A -> A) (l : list A) :
  length (update_first p f l) = length l.
Proof.
  induction l as [|x l IH]; [reflexivity|].
  simpl. destruct (p x); simpl; [reflexivity | rewrite IH; reflexivity].
Qed.

Lemma existsb_find_some {A} (p : A -> bool) (l : list A) :
  existsb p l = true <-> exists x, find p l = Some x.
Proof.
  induction l as [|x l IH]; simpl.
  - split; [discriminate | intros [? ?]; discriminate].
  - destruct (p x); simpl; [split; eauto | exact IH].
Qed.

Lemma by_id_other (oid oid' : ObjectId.t) (o : Order.t) :
  oid' <> oid -> by_id oid o = true -> by_id oid' o = false.
Proof.
  unfold by_id, ObjectId.eqb. intros Hne H.
  apply N.eqb_eq in H. apply N.eqb_neq. congruence.
Qed.

(** An identifier that is a document id: [ObjectId] reads its twelve bytes,
    and the filter on them is the filter on the id. *)
Lemma of_str_binary (s : string) (oid : ObjectId.t) :
  ObjectId.of_str s = Some oid ->
  exists bytes,
    ObjectId.binary s = Some bytes /\ ObjectId.of_bytes bytes = Some oid.
Proof.
  unfold ObjectId.of_str. destruct (ObjectId.binary s) as [bytes|]; [|discriminate].
  intros H. exists bytes. split; [reflexivity | exact H].
Qed.

Lemma by_object_id_of_bytes (bytes : list N) (oid : ObjectId.t) :
  ObjectId.of_bytes bytes = Some oid -> by_object_id bytes = by_id oid.
Proof. unfold by_object_id. intros ->. reflexivity. Qed.

Lemma user_by_object_id_of_bytes (bytes : list N) (oid : ObjectId.t) :
  ObjectId.of_bytes bytes = Some oid -> user_by_object_id bytes = user_by_id oid.
Proof. unfold user_by_object_id. intros ->. reflexivity. Qed.

(** The bytes of an [ObjectId] that is no document id select nothing. *)
Lemma find_by_short_object_id (bytes : list N) (l : list Order.t) :
  ObjectId.of_bytes bytes = None -> find (by_object_id bytes) l = None.
Proof.
  unfold by_object_id. intros ->. induction l as [|x l IH]; [reflexivity | exact IH].
Qed.

Lemma update_first_by_short_object_id (bytes : list N) (f : Order.t -> Order.t)
    (l : list Order.t) :
  ObjectId.of_bytes bytes = None -> update_first (by_object_id bytes) f l = l.
Proof.
  unfold by_object_id. intros ->. induction l as [|x l IH]; [reflexivity|].
  simpl. rewrite IH. reflexivity.
Qed.

Lemma truthy_admin_flag (u : User.t) :
  truthy_bool (User.is_admin u) = true <-> has_admin_flag u.
Proof.
  unfold has_admin_flag. destruct (User.is_admin u) as [[|]|]; simpl;
    split; congruence.
Qed.

(** The authorization test of [cancel_order], as a proposition. *)
Lemma cancel_refused_iff (u : User.t) (o : Order.t) :
  negb (bool_decide (Order.user_id o = Some (ObjectId.str (User._id u))))
  && negb (truthy_bool (User.is_admin u)) = true
  <-> ~ is_owner u o /\ ~ has_admin_flag u.
Proof.
  rewrite andb_true_iff, !negb_true_iff, bool_decide_eq_false.
  rewrite <- truthy_admin_flag, not_true_iff_false. reflexivity.
Qed.

(** [cancel_order] on a well-formed identifier, in one equation. *)
Lemma cancel_order_run now order_id oid current_user db :
  ObjectId.of_str order_id = Some oid ->
  cancel_order now order_id current_user db
  = match find (by_id oid) (orders db) with
    | None => (Raise NotFound, db)
    | Some o =>
        if negb (bool_decide (Order.user_id o = Some (ObjectId.str (User._id current_user))))
           && negb (truthy_bool (User.is_admin current_user))
        then (Raise Forbidden_cancel, db)
        else if negb (OrderStatus.eqb (Order.status o) OrderStatus.PENDING
                      || OrderStatus.eqb (Order.status o) OrderStatus.CONFIRMED)
        then (Raise InvalidTransition, db)
        else (Ok (serialize_order (cancelled now o)),
              mkdb (update_first (by_id oid) (cancelled now) (orders db)) (users db))
    end.
Proof.
  intros Hid. destruct (of_str_binary _ _ Hid) as (bytes & Hbin & Hoid).
  unfold cancel_order. rewrite Hbin, (by_object_id_of_bytes _ _ Hoid).
  unfold bind, orders_collection.find_one. cbn [orders].
  destruct (find (by_id oid) (orders db)) as [o|] eqn:Hfind; [|reflexivity].
  destruct (negb (bool_decide _) && negb (truthy_bool _)); [reflexivity|].
  destruct (negb (_ || _)); [reflexivity|].
  unfold orders_collection.update_one. cbn [orders users].
  change (fun o0 => Order.set_updated_at now (Order.set_status OrderStatus.CANCELLED o0))
    with (cancelled now).
  rewrite find_update_first_same by reflexivity.
  rewrite Hfind. reflexivity.
Qed.

Lemma status_not_cancellable (s : OrderStatus.t) :
  negb (OrderStatus.eqb s OrderStatus.PENDING || OrderStatus.eqb s OrderStatus.CONFIRMED) = true
  <-> s <> OrderStatus.PENDING /\ s <> OrderStatus.CONFIRMED.
Proof.
  destruct s; simpl; split; try discriminate; try (intros [? ?]; congruence);
    intros _; split; discriminate.
Qed.

(** C3, as the claim states it, fails: for an identifier that matches no
    order because it is not a well-formed id, [cancel_order] does not
    answer NotFound; it raises the 400 error "Invalid order ID". *)
Lemma cancel_order_no_match_not_NotFound :
  let db := mkdb [stored_order 1%N (Some (ObjectId.str 7%N)) OrderStatus.PENDING] [customer] in
  (forall o, In o (orders db) -> ObjectId.str (Order._id o) <> "no-such-order")
  /\ cancel_order 1700000100 "no-such-order" customer db
     = (Raise (HTTPException 400 "Invalid order ID"), db)
  /\ HTTPException 400 "Invalid order ID" <> NotFound.
Proof.
  split; [|split].
  - intros o [<-|[]]. vm_compute. discriminate.
  - reflexivity.
  - discriminate.
Qed.

(** C3, amended.  For every caller the authentication gate lets through
    and every well-formed order id, [cancel_order] checks in this order:
    it fails with NotFound if no order has the id; else with Forbidden if
    the caller is neither the order's owner nor an admin; else with
    InvalidTransition if the order's status is neither pending nor
    confirmed (so from processing, shipped, delivered and cancelled); else,
    from pending and from confirmed, it succeeds and answers the order with
    status cancelled.  The three failures leave the store as it was. *)
Theorem cancel_order_outcomes now order_id oid current_user db :
  ObjectId.of_str order_id = Some oid ->
  let r := cancel_order now order_id current_user db in
  (find (by_id oid) (orders db) = None -> r = (Raise NotFound, db))
  /\ (forall o, find (by_id oid) (orders db) = Some o ->
        ~ is_owner current_user o -> ~ has_admin_flag current_user ->
        r = (Raise Forbidden_cancel, db))
  /\ (forall o, find (by_id oid) (orders db) = Some o ->
        is_owner current_user o \/ has_admin_flag current_user ->
        Order.status o <> OrderStatus.PENDING ->
        Order.status o <> OrderStatus.CONFIRMED ->
        r = (Raise InvalidTransition, db))
  /\ (forall o, find (by_id oid) (orders db) = Some o ->
        is_owner current_user o \/ has_admin_flag current_user ->
        Order.status o = OrderStatus.PENDING \/ Order.status o = OrderStatus.CONFIRMED ->
        exists resp db',
          r = (Ok resp, db')
          /\ OrderResponse.status resp = OrderStatus.CANCELLED
          /\ OrderResponse.id resp = ObjectId.str (Order._id o)).
Proof.
  intros Hid r. unfold r. rewrite (cancel_order_run _ _ _ _ _ Hid).
  split; [|split; [|split]].
  - intros ->. reflexivity.
  - intros o -> Hown Hadm.
    rewrite (proj2 (cancel_refused_iff current_user o)) by (split; assumption).
    reflexivity.
  - intros o -> Hauth Hp Hc.
    destruct (negb (bool_decide _) && negb (truthy_bool _)) eqn:Hr.
    { apply cancel_refused_iff in Hr. tauto. }
    rewrite (proj2 (status_not_cancellable (Order.status o))) by (split; assumption).
    reflexivity.
  - intros o -> Hauth Hs.
    destruct (negb (bool_decide _) && negb (truthy_bool _)) eqn:Hr.
    { apply cancel_refused_iff in Hr. tauto. }
    destruct (negb (_ || _)) eqn:Hn.
    { apply status_not_cancellable in Hn. tauto. }
    eexists. eexists. split; [reflexivity|]. split; reflexivity.
Qed.

Lemma cancel_order_outcomes_witness :
  ObjectId.of_str order_id_1 = Some 1%N
  /\ exists resp db',
       cancel_order 1700000100 order_id_1 customer
         (mkdb [stored_order 1%N (Some (ObjectId.str 7%N)) OrderStatus.CONFIRMED] [customer])
       = (Ok resp, db')
       /\ OrderResponse.status resp = OrderStatus.CANCELLED
       /\ OrderResponse.id resp = order_id_1.
Proof.
  split; [reflexivity|].
  exact (proj2 (proj2 (proj2
    (cancel_order_outcomes 1700000100 order_id_1 1%N customer
       (mkdb [stored_order 1%N (Some (ObjectId.str 7%N)) OrderStatus.CONFIRMED] [customer])
       eq_refl)))
    (stored_order 1%N (Some (ObjectId.str 7%N)) OrderStatus.CONFIRMED)
    eq_refl (or_introl eq_refl) (or_intror eq_refl)).
Defined.

(** C10. For every guest order ([user_id] is null) and every caller whose
    admin flag is false, [cancel_order] fails with Forbidden and leaves
    the store as it was, whatever the order's status. *)
Theorem cancel_guest_order_forbidden now order_id oid current_user db o :
  ObjectId.of_str order_id = Some oid ->
  find (by_id oid) (orders db) = Some o ->
  Order.user_id o = None ->
  ~ has_admin_flag current_user ->
  cancel_order now order_id current_user db = (Raise Forbidden_cancel, db).
Proof.
  intros Hid Hfind Hguest Hadm.
  rewrite (cancel_order_run _ _ _ _ _ Hid), Hfind.
  rewrite (proj2 (cancel_refused_iff current_user o)); [reflexivity|].
  split; [|exact Hadm]. unfold is_owner. rewrite Hguest. discriminate.
Qed.

Lemma cancel_guest_order_forbidden_witness :
  cancel_order 1700000100 order_id_1 customer
    (mkdb [stored_order 1%N None OrderStatus.PENDING] [customer])
  = (Raise Forbidden_cancel, mkdb [stored_order 1%N None OrderStatus.PENDING] [customer]).
Proof.
  apply (cancel_guest_order_forbidden 1700000100 order_id_1 1%N customer
           (mkdb [stored_order 1%N None OrderStatus.PENDING] [customer])
           (stored_order 1%N None OrderStatus.PENDING)).
  - reflexivity.
  - reflexivity.
  - reflexivity.
  - unfold has_admin_flag. simpl. discriminate.
Defined.

(** C9. Frame condition of a successful [cancel_order]: for every stored
    order in status pending or confirmed, cancelled by its owner or by an
    admin, the call succeeds; the order then stored under the id (and the
    one answered) has [status = cancelled] and [updated_at] set to the
    current time, and its items, shipping_address, email, subtotal,
    shipping_cost, total, payment_method, payment_status, shipping_method,
    order_number, user_id, tracking_number, notes and created_at (and its
    id) are those it had.  No other order and no user is touched. *)
Theorem cancel_order_frame now order_id oid current_user db o :
  ObjectId.of_str order_id = Some oid ->
  find (by_id oid) (orders db) = Some o ->
  is_owner current_user o \/ has_admin_flag current_user ->
  Order.status o = OrderStatus.PENDING \/ Order.status o = OrderStatus.CONFIRMED ->
  exists o' db',
    cancel_order now order_id current_user db = (Ok (serialize_order o'), db')
    /\ find (by_id oid) (orders db') = Some o'
    /\ Order.status o' = OrderStatus.CANCELLED
    /\ Order.updated_at o' = now
    /\ Order.items o' = Order.items o
    /\ Order.shipping_address o' = Order.shipping_address o
    /\ Order.email o' = Order.email o
    /\ Order.subtotal o' = Order.subtotal o
    /\ Order.shipping_cost o' = Order.shipping_cost o
    /\ Order.total o' = Order.total o
    /\ Order.payment_method o' = Order.payment_method o
    /\ Order.payment_status o' = Order.payment_status o
    /\ Order.shipping_method o' = Order.shipping_method o
    /\ Order.order_number o' = Order.order_number o
    /\ Order.user_id o' = Order.user_id o
    /\ Order.tracking_number o' = Order.tracking_number o
    /\ Order.notes o' = Order.notes o
    /\ Order.created_at o' = Order.created_at o
    /\ Order._id o' = Order._id o
    /\ users db' = users db
    /\ length (orders db') = length (orders db)
    /\ (forall oid', oid' <> oid ->
          find (by_id oid') (orders db') = find (by_id oid') (orders db)).
Proof.
  intros Hid Hfind Hauth Hs.
  exists (cancelled now o).
  exists (mkdb (update_first (by_id oid) (cancelled now) (orders db)) (users db)).
  split.
  { rewrite (cancel_order_run _ _ _ _ _ Hid), Hfind.
    destruct (negb (bool_decide _) && negb (truthy_bool _)) eqn:Hr.
    { apply cancel_refused_iff in Hr. tauto. }
    destruct (negb (_ || _)) eqn:Hn.
    { apply status_not_cancellable in Hn. tauto. }
    reflexivity. }
  split.
  { cbn [orders]. rewrite find_update_first_same by reflexivity.
    rewrite Hfind. reflexivity. }
  do 17 (split; [reflexivity|]).
  split; [reflexivity|]. split.
  - cbn [orders]. apply length_update_first.
  - intros oid' Hne. cbn [orders].
    apply find_update_first_other; [|reflexivity].
    intros x Hx. exact (by_id_other oid oid' x Hne Hx).
Qed.

Lemma cancel_order_frame_witness :
  exists o' db',
    cancel_order 1700000100 order_id_1 admin_user
      (mkdb [stored_order 2%N None OrderStatus.SHIPPED;
             stored_order 1%N (Some (ObjectId.str 7%N)) OrderStatus.PENDING]
            [customer; admin_user])
    = (Ok (serialize_order o'), db')
    /\ find (by_id 1%N) (orders db') = Some o'
    /\ Order.status o' = OrderStatus.CANCELLED
    /\ Order.updated_at o' = 1700000100.
Proof.
  destruct (cancel_order_frame 1700000100 order_id_1 1%N admin_user
              (mkdb [stored_order 2%N None OrderStatus.SHIPPED;
                     stored_order 1%N (Some (ObjectId.str 7%N)) OrderStatus.PENDING]
                    [customer; admin_user])
              (stored_order 1%N (Some (ObjectId.str 7%N)) OrderStatus.PENDING)
              eq_refl eq_refl (or_intror eq_refl) (or_introl eq_refl))
    as (o' & db' & Hrun & Hfind & Hst & Hup & _).
  exists o', db'. repeat split; assumption.
Defined.

(** ** Malformed identifiers *)

(** C8, as the claim states it, fails: on an identifier that [ObjectId]
    refuses, [cancel_order] and [update_order] raise a 400 error, which is
    not the 404 raised when no order matches. *)
Lemma malformed_order_id_is_not_NotFound :
  ObjectId.binary "AJR-250101-ABC123" = None
  /\ cancel_order 1700000100 "AJR-250101-ABC123" admin_user empty_db
     = (Raise (HTTPException 400 "Invalid order ID"), empty_db)
  /\ update_order 1700000100 "AJR-250101-ABC123" empty_patch admin_user empty_db
     = (Raise (HTTPException 400 "Invalid order ID"), empty_db)
  /\ cancel_order 1700000100 order_id_1 admin_user empty_db
     = (Raise (HTTPException 404 "Order not found"), empty_db)
  /\ update_order 1700000100 order_id_1 empty_patch admin_user empty_db
     = (Raise (HTTPException 404 "Order not found"), empty_db).
Proof. repeat split. Qed.

(** C8, amended.  An order identifier that [ObjectId] refuses is rejected
    as a bad request of its own, not as not-found: for every identifier
    string on which [ObjectId(order_id)] raises (its length is not 24, or
    [bytes.fromhex] does not read it), [cancel_order] and [update_order]
    raise the 400 error "Invalid order ID", before the store is read or
    written; that error differs from the 404 NotFound raised when an
    accepted id matches no order.  An identifier [ObjectId] accepts never
    gets the "Invalid order ID" answer. *)
Theorem malformed_order_id_rejected now order_id order_data current_user db :
  (ObjectId.binary order_id = None ->
   cancel_order now order_id current_user db = (Raise InvalidOrderId, db)
   /\ update_order now order_id order_data current_user db = (Raise InvalidOrderId, db))
  /\ (forall oid, ObjectId.binary order_id = Some oid ->
      fst (cancel_order now order_id current_user db) <> Raise InvalidOrderId
      /\ fst (update_order now order_id order_data current_user db)
         <> Raise InvalidOrderId)
  /\ InvalidOrderId = HTTPException 400 "Invalid order ID"
  /\ InvalidOrderId <> NotFound.
Proof.
  split; [|split; [|split; [reflexivity | discriminate]]].
  - intros Hid. unfold cancel_order, update_order. rewrite Hid. split; reflexivity.
  - intros oid Hid. unfold cancel_order, update_order. rewrite Hid.
    unfold bind, orders_collection.find_one, orders_collection.update_one,
      raise, ret.
    split.
    + destruct (find (by_object_id oid) (orders db)) as [o|]; [|discriminate].
      destruct (negb (bool_decide _) && negb (truthy_bool _)); [discriminate|].
      destruct (negb (_ || _)); [discriminate|].
      cbn [orders users].
      destruct (find _ (update_first _ _ _)); discriminate.
    + destruct (existsb (by_object_id oid) (orders db)); cbn [fst snd Z.eqb];
        [|discriminate].
      cbn [orders users].
      destruct (find _ (update_first _ _ _)); discriminate.
Qed.

Lemma malformed_order_id_rejected_witness :
  cancel_order 1700000100 "not-an-id" customer empty_db = (Raise InvalidOrderId, empty_db)
  /\ update_order 1700000100 "not-an-id" empty_patch admin_user empty_db
     = (Raise InvalidOrderId, empty_db)
  /\ cancel_order 1700000100 "00000000000000000000000g" customer empty_db
     = (Raise InvalidOrderId, empty_db).
Proof.
  split; [|split].
  - exact (proj1 (proj1 (malformed_order_id_rejected 1700000100 "not-an-id" empty_patch
                    customer empty_db) eq_refl)).
  - exact (proj2 (proj1 (malformed_order_id_rejected 1700000100 "not-an-id" empty_patch
                    admin_user empty_db) eq_refl)).
  - exact (proj1 (proj1 (malformed_order_id_rejected 1700000100
                    "00000000000000000000000g" empty_patch customer empty_db) eq_refl)).
Defined.

(** ** Viewing an order *)

Lemma to_hex_nonempty (k : nat) (n : N) (c : ascii) (acc : string) :
  exists c' s', ObjectId.to_hex k n (String c acc) = String c' s'.
Proof.
  revert n c acc. induction k as [|k IH]; intros n c acc; simpl.
  - eauto.
  - apply IH.
Qed.

Lemma ObjectId_str_truthy (oid : ObjectId.t) :
  truthy_str (Some (ObjectId.str oid)) = true.
Proof.
  unfold ObjectId.str.
  destruct (to_hex_nonempty 23 (oid / 16)%N
              (ObjectId.hex_digit (oid mod 16)%N) "") as (c' & s' & H).
  change (ObjectId.to_hex 24 oid "")
    with (ObjectId.to_hex 23 (oid / 16)%N
            (String (ObjectId.hex_digit (oid mod 16)%N) "")).
  rewrite H. reflexivity.
Qed.

(** [get_order] in one equation. *)
Lemma get_order_run order_id current_user db :
  get_order order_id current_user db
  = match fetched order_id db with
    | None => (Raise NotFound, db)
    | Some o =>
        match current_user with
        | Some u =>
            if truthy_str (Order.user_id o)
               && negb (bool_decide (Order.user_id o = Some (ObjectId.str (User._id u))))
               && negb (truthy_bool (User.is_admin u))
            then (Raise Forbidden_view, db)
            else (Ok (serialize_order o), db)
        | None => (Ok (serialize_order o), db)
        end
    end.
Proof.
  unfold get_order, fetched, bind.
  destruct (ObjectId.binary order_id) as [oid|];
    unfold orders_collection.find_one;
    (destruct (find _ (orders db)) as [o|]; [|reflexivity]);
    (destruct current_user as [u|]; [|reflexivity]);
    destruct (_ && _ && _); reflexivity.
Qed.

(** C4. For every order fetched through [get_order]: when a caller is
    present and the order has an owner, the request succeeds if the caller
    is that owner or has the admin flag, and fails with Forbidden
    otherwise; when the order has no owner (guest order) no ownership check
    is made, and every caller, authenticated or not, receives the order;
    when no caller is present the order is returned, so the Forbidden
    branch is never taken. *)
Theorem get_order_authorization order_id db o :
  fetched order_id db = Some o ->
  (forall u owner,
      Order.user_id o = Some (ObjectId.str owner) ->
      (is_owner u o \/ has_admin_flag u ->
         get_order order_id (Some u) db = (Ok (serialize_order o), db))
      /\ (~ (is_owner u o \/ has_admin_flag u) ->
         get_order order_id (Some u) db = (Raise Forbidden_view, db)))
  /\ (Order.user_id o = None ->
      forall caller, get_order order_id caller db = (Ok (serialize_order o), db))
  /\ get_order order_id None db = (Ok (serialize_order o), db).
Proof.
  intros Hfetch. split; [|split].
  - intros u owner Howner. rewrite get_order_run, Hfetch.
    assert (Ht : truthy_str (Order.user_id o) = true)
      by (rewrite Howner; apply ObjectId_str_truthy).
    rewrite Ht. cbn [andb]. fold (is_owner u o). split.
    + intros [Hown|Hadm].
      * rewrite bool_decide_eq_true_2 by exact Hown. reflexivity.
      * apply truthy_admin_flag in Hadm. rewrite Hadm, andb_false_r. reflexivity.
    + intros Hnot.
      rewrite bool_decide_eq_false_2 by tauto.
      destruct (truthy_bool (User.is_admin u)) eqn:Hadm; [|reflexivity].
      apply truthy_admin_flag in Hadm. tauto.
  - intros Hguest caller. rewrite get_order_run, Hfetch, Hguest.
    destruct caller; reflexivity.
  - rewrite get_order_run, Hfetch. reflexivity.
Qed.

Lemma get_order_authorization_witness :
  let o := stored_order 1%N (Some (ObjectId.str 7%N)) OrderStatus.SHIPPED in
  let db := mkdb [o] [customer; other_customer; admin_user] in
  get_order order_id_1 (Some customer) db = (Ok (serialize_order o), db)
  /\ get_order order_id_1 (Some admin_user) db = (Ok (serialize_order o), db)
  /\ get_order order_id_1 (Some other_customer) db = (Raise Forbidden_view, db)
  /\ get_order "AJR-250101-ABC123" None db = (Ok (serialize_order o), db).
Proof.
  intros o db.
  pose proof (get_order_authorization order_id_1 db o eq_refl) as [Hcaller _].
  pose proof (get_order_authorization "AJR-250101-ABC123" db o eq_refl) as (_ & _ & Hnone).
  split; [|split; [|split]].
  - apply (proj1 (Hcaller customer 7%N eq_refl)). left. reflexivity.
  - apply (proj1 (Hcaller admin_user 7%N eq_refl)). right. reflexivity.
  - apply (proj2 (Hcaller other_customer 7%N eq_refl)).
    unfold is_owner, has_admin_flag. intros [H|H]; vm_compute in H; discriminate.
  - exact Hnone.
Defined.

(** ** Tracking an order *)

(** [track_order] in one equation. *)
Lemma track_order_run order_number email db :
  track_order order_number email db
  = match find (by_order_number_and_email order_number (lower email)) (orders db) with
    | Some o => (Ok (serialize_order o), db)
    | None => (Raise NotFound, db)
    end.
Proof.
  unfold track_order, bind, orders_collection.find_one.
  destruct (find _ (orders db)); reflexivity.
Qed.

(** C6, at the failing input.  An order placed with the contact email
    "Sana@Example.com" is stored with that spelling; tracking it with its
    own order number and the very same email, or with any other spelling
    of it, answers NotFound. *)
Theorem track_order_mixed_case_email_lost :
  exists resp db',
    create_order "250101" "ABC123" 1700000000 1%N mixed_case_request None empty_db
      = (Ok resp, db')
    /\ OrderResponse.order_number resp = "AJR-250101-ABC123"
    /\ OrderResponse.email resp = "Sana@Example.com"
    /\ track_order "AJR-250101-ABC123" "Sana@Example.com" db' = (Raise NotFound, db')
    /\ track_order "AJR-250101-ABC123" "sana@example.com" db' = (Raise NotFound, db')
    /\ track_order "AJR-250101-ABC123" "SANA@EXAMPLE.COM" db' = (Raise NotFound, db').
Proof.
  eexists. eexists. split; [reflexivity|]. repeat split.
Qed.

(** ** Tokens *)

Section token_properties.
Context {Tag : Type} `{EqDecision Tag}.
Variable sign : string -> string -> jose.payload -> Tag.

Lemma decode_signed now claims :
  jose.decode sign now (jose.encode sign claims settings.SECRET_KEY settings.ALGORITHM)
    settings.SECRET_KEY [settings.ALGORITHM]
  = if jose.claims_refused now claims then Raise JWTError else Ok claims.
Proof.
  unfold jose.decode, jose.encode.
  change (existsb (String.eqb settings.ALGORITHM) [settings.ALGORITHM]) with true.
  cbn [negb]. rewrite bool_decide_eq_true_2 by reflexivity.
  reflexivity.
Qed.

(** The claims of an issued token, a subject and an expiry, pass every
    check but the one on the expiry. *)
Lemma issued_claims_refused now (sub : string) (exp : Z) :
  jose.claims_refused now (<["exp" := jose.JInt exp]> {["sub" := jose.JStr sub]})
  = (exp <? now).
Proof.
  unfold jose.claims_refused.
  rewrite lookup_insert_eq.
  rewrite !lookup_insert_ne by discriminate.
  rewrite lookup_singleton_eq.
  rewrite !lookup_singleton_ne by discriminate.
  cbn [jose.int orb]. rewrite !orb_false_r. reflexivity.
Qed.

Lemma issued_claims now (sub : string) (ttl : Z) :
  ttl <> 0 ->
  create_access_token sign now {["sub" := jose.JStr sub]} (Some ttl)
  = jose.encode sign (<["exp" := jose.JInt (now + ttl)]> {["sub" := jose.JStr sub]})
      settings.SECRET_KEY settings.ALGORITHM.
Proof.
  intros Hne. unfold create_access_token.
  destruct (Z.eqb_spec ttl 0); [contradiction | reflexivity].
Qed.

Lemma token_subject_encoded now' (sub : string) (exp : Z) :
  token_subject sign now'
    (jose.encode sign (<["exp" := jose.JInt exp]> {["sub" := jose.JStr sub]})
       settings.SECRET_KEY settings.ALGORITHM)
  = if exp <? now' then Raise credentials_exception
    else Ok (jose.JStr sub).
Proof.
  unfold token_subject.
  rewrite decode_signed, issued_claims_refused.
  destruct (exp <? now'); [reflexivity|].
  rewrite lookup_insert_ne by discriminate.
  rewrite lookup_singleton_eq. reflexivity.
Qed.

Lemma token_subject_issued now now' (sub : string) (ttl : Z) :
  ttl <> 0 ->
  token_subject sign now'
    (create_access_token sign now {["sub" := jose.JStr sub]} (Some ttl))
  = if now + ttl <? now' then Raise credentials_exception
    else Ok (jose.JStr sub).
Proof.
  intros Hne. rewrite (issued_claims _ _ _ Hne). apply token_subject_encoded.
Qed.

End token_properties.

(** ** Owner references and the access-control gate *)

(** The owner [create_order] records is the caller's id in its 24-digit
    spelling, or nothing for a guest. *)
Lemma order_doc_owner timestamp random_part now inserted_id order_data current_user :
  Order.user_id (order_doc timestamp random_part now inserted_id order_data current_user)
  = option_map (fun u => ObjectId.str (User._id u)) current_user.
Proof.
  unfold order_doc.
  destruct (String.eqb (PaymentMethod.value _) "card"), current_user; reflexivity.
Qed.

(** Neither an administrative update nor a cancellation rewrites it. *)
Lemma update_data_owner order_data now o :
  Order.user_id (update_data order_data now o) = Order.user_id o.
Proof.
  unfold update_data.
  destruct (OrderUpdate.status order_data), (OrderUpdate.payment_status order_data),
    (OrderUpdate.tracking_number order_data), (OrderUpdate.notes order_data);
    reflexivity.
Qed.

(** [get_current_active_user] admits exactly the resolved, active callers
    and does not touch the store. *)
Lemma get_current_active_user_admits current_user db u db' :
  get_current_active_user current_user db = (Ok u, db') ->
  current_user = Some u /\ User.is_active u <> Some false /\ db' = db.
Proof.
  unfold get_current_active_user, is_active_or_default, raise, ret.
  destruct current_user as [cu|]; [|discriminate].
  destruct (User.is_active cu) as [[|]|] eqn:Hact; simpl; try discriminate;
    intros [= <- <-]; rewrite Hact; repeat split; discriminate.
Qed.

(** [get_admin_user] admits exactly the callers with the admin flag. *)
Lemma get_admin_user_admits current_user db u db' :
  get_admin_user current_user db = (Ok u, db') ->
  u = current_user /\ has_admin_flag u /\ db' = db.
Proof.
  unfold get_admin_user, raise, ret.
  destruct (truthy_bool (User.is_admin current_user)) eqn:Hadm; simpl;
    [|discriminate].
  intros [= <- <-]. apply truthy_admin_flag in Hadm. repeat split; assumption.
Qed.

(** * Further properties of the handlers *)

(** ** Identifiers *)

Lemma hex_val_hex_digit (d : N) :
  (d < 16)%N -> ObjectId.hex_val (ObjectId.hex_digit d) = Some d.
Proof.
  intros Hd.
  destruct d as [|p]; [reflexivity|].
  do 4 (destruct p as [p|p|]; try reflexivity; try lia).
Qed.

Lemma length_to_hex (k : nat) (n : N) (acc : string) :
  String.length (ObjectId.to_hex k n acc) = (k + String.length acc)%nat.
Proof.
  revert n acc. induction k as [|k IH]; intros n acc; [reflexivity|].
  cbn [ObjectId.to_hex]. rewrite IH. cbn [String.length]. lia.
Qed.

Lemma is_space_hex_digit (d : N) :
  (d < 16)%N -> ObjectId.is_space (ObjectId.hex_digit d) = false.
Proof.
  intros Hd.
  destruct d as [|p]; [reflexivity|].
  do 4 (destruct p as [p|p|]; try reflexivity; try lia).
Qed.

(** [bytes.fromhex] reads the digits [to_hex] writes, two to a byte, most
    significant byte first. *)
Lemma fromhex_to_hex (k : nat) (n : N) (acc : string) (bs : list N) :
  ObjectId.fromhex acc = Some bs ->
  exists bs',
    ObjectId.fromhex (ObjectId.to_hex (k + k) n acc) = Some (bs' ++ bs)%list
    /\ length bs' = k
    /\ forall a, fold_left (fun acc b => 256 * acc + b)%N bs' a
                 = (a * 256 ^ N.of_nat k + n mod 256 ^ N.of_nat k)%N.
Proof.
  revert n acc bs. induction k as [|k IH]; intros n acc bs Hacc.
  - exists []. split; [exact Hacc|]. split; [reflexivity|].
    intros a. cbn [fold_left]. change (N.of_nat 0) with 0%N.
    rewrite N.pow_0_r, N.mod_1_r. lia.
  - rewrite Nat.add_succ_r. cbn [Nat.add ObjectId.to_hex].
    set (b := (16 * ((n / 16) mod 16) + n mod 16)%N).
    assert (Hstep : ObjectId.fromhex
                      (String (ObjectId.hex_digit ((n / 16) mod 16)%N)
                         (String (ObjectId.hex_digit (n mod 16)%N) acc))
                    = Some (b :: bs)).
    { cbn [ObjectId.fromhex].
      rewrite is_space_hex_digit by (apply N.mod_lt; discriminate).
      rewrite !hex_val_hex_digit by (apply N.mod_lt; discriminate).
      rewrite Hacc. reflexivity. }
    destruct (IH (n / 16 / 16)%N _ _ Hstep) as (bs' & Hread & Hlen & Hfold).
    exists (bs' ++ [b])%list. split; [|split].
    + rewrite Hread, <- app_assoc. reflexivity.
    + rewrite length_app, Hlen. cbn [length]. lia.
    + intros a. rewrite fold_left_app, Hfold. cbn [fold_left].
      rewrite Nat2N.inj_succ, N.pow_succ_r'.
      rewrite (N.Div0.mod_mul_r n 256 (256 ^ N.of_nat k)).
      rewrite N.Div0.div_div. change (16 * 16)%N with 256%N.
      assert (Hb : b = (n mod 256)%N).
      { unfold b. change 256%N with (16 * 16)%N.
        rewrite (N.Div0.mod_mul_r n 16 16). lia. }
      rewrite Hb. lia.
Qed.

(** Reading back the 24-digit spelling of an [ObjectId] gives the
    [ObjectId]. *)
Lemma ObjectId_of_str_str (oid : ObjectId.t) :
  (oid < 2 ^ 96)%N -> ObjectId.of_str (ObjectId.str oid) = Some oid.
Proof.
  intros Hlt. unfold ObjectId.of_str, ObjectId.binary, ObjectId.str.
  rewrite length_to_hex. cbn [String.length Nat.add Nat.eqb].
  destruct (fromhex_to_hex 12 oid "" [] eq_refl) as (bs & Hread & Hlen & Hfold).
  change (12 + 12)%nat with 24%nat in Hread. rewrite Hread, app_nil_r.
  unfold ObjectId.of_bytes. rewrite Hlen. cbn [Nat.eqb].
  rewrite Hfold. f_equal. change (256 ^ N.of_nat 12)%N with (2 ^ 96)%N.
  rewrite N.mod_small by exact Hlt. lia.
Qed.

(** [ObjectId] refuses every order number. *)
Lemma order_number_not_ObjectId timestamp random_part :
  ObjectId.binary (generate_order_number timestamp random_part) = None.
Proof.
  unfold ObjectId.binary, generate_order_number.
  destruct (Nat.eqb _ 24); reflexivity.
Qed.

(** ** Store lemmas *)

Lemma existsb_false_all {A} (p : A -> bool) (l : list A) :
  existsb p l = false -> forall x, In x l -> p x = false.
Proof.
  induction l as [|y l IH]; simpl; [intros _ x []|].
  intros H x [<-|Hin]; apply orb_false_iff in H as [Hy Hl]; auto.
Qed.

Lemma find_app_fresh {A} (p : A -> bool) (l : list A) (d : A) :
  (forall x, In x l -> p x = false) ->
  find p (l ++ [d]) = if p d then Some d else None.
Proof.
  induction l as [|y l IH]; intros Hall; simpl; [reflexivity|].
  rewrite (Hall y) by (left; reflexivity).
  apply IH. intros x Hx. apply Hall. right. exact Hx.
Qed.

Lemma find_app_old {A} (p : A -> bool) (l : list A) (d x : A) :
  find p l = Some x -> find p (l ++ [d]) = Some x.
Proof.
  induction l as [|y l IH]; simpl; [discriminate|].
  destruct (p y); [trivial | exact IH].
Qed.

Lemma update_first_none {A} (p : A -> bool) (f : A -> A) (l : list A) :
  find p l = None -> update_first p f l = l.
Proof.
  induction l as [|y l IH]; simpl; [reflexivity|].
  destruct (p y); [discriminate|]. intros H. rewrite IH by exact H. reflexivity.
Qed.

Lemma existsb_find_none {A} (p : A -> bool) (l : list A) :
  existsb p l = false <-> find p l = None.
Proof.
  induction l as [|y l IH]; simpl; [tauto|].
  destruct (p y); simpl; [split; discriminate | exact IH].
Qed.

Lemma mkdb_eta (db : database) : mkdb (orders db) (users db) = db.
Proof. destruct db; reflexivity. Qed.

Lemma update_data_id order_data now o :
  Order._id (update_data order_data now o) = Order._id o.
Proof.
  unfold update_data.
  destruct (OrderUpdate.status order_data), (OrderUpdate.payment_status order_data),
    (OrderUpdate.tracking_number order_data), (OrderUpdate.notes order_data);
    reflexivity.
Qed.

Lemma fresh_keys doc db :
  duplicate_key doc db = false ->
  (forall o, In o (orders db) -> by_id (Order._id doc) o = false)
  /\ (forall o, In o (orders db) -> by_order_number (Order.order_number doc) o = false).
Proof.
  intros Hdup. unfold duplicate_key in Hdup.
  split; intros o Hin;
    pose proof (existsb_false_all _ _ Hdup o Hin) as Ho;
    apply orb_false_iff in Ho as [H1 H2]; assumption.
Qed.

(** [update_order] on a well-formed identifier, in one equation. *)
Lemma update_order_run now order_id oid order_data admin db :
  ObjectId.of_str order_id = Some oid ->
  update_order now order_id order_data admin db
  = match find (by_id oid) (orders db) with
    | None => (Raise NotFound, db)
    | Some o =>
        (Ok (serialize_order (update_data order_data now o)),
         mkdb (update_first (by_id oid) (update_data order_data now) (orders db))
              (users db))
    end.
Proof.
  intros Hid. destruct (of_str_binary _ _ Hid) as (bytes & Hbin & Hoid).
  unfold update_order. rewrite Hbin, (by_object_id_of_bytes _ _ Hoid).
  unfold bind, orders_collection.update_one.
  destruct (find (by_id oid) (orders db)) as [o|] eqn:Hfind.
  - assert (Hex : existsb (by_id oid) (orders db) = true)
      by (apply existsb_find_some; eauto).
    rewrite Hex. cbn [Z.eqb]. unfold orders_collection.find_one. cbn [orders].
    rewrite find_update_first_same
      by (intros x; unfold by_id; rewrite update_data_id; reflexivity).
    rewrite Hfind. reflexivity.
  - assert (Hex : existsb (by_id oid) (orders db) = false)
      by (apply existsb_find_none; exact Hfind).
    rewrite Hex. cbn [Z.eqb]. unfold raise.
    rewrite update_first_none by exact Hfind. rewrite mkdb_eta. reflexivity.
Qed.

(** An identifier [ObjectId] accepts although it spells fewer than twelve
    bytes names no order. *)
Lemma short_order_id_not_found now order_id bytes order_data current_user db :
  ObjectId.binary order_id = Some bytes ->
  ObjectId.of_bytes bytes = None ->
  cancel_order now order_id current_user db = (Raise NotFound, db)
  /\ update_order now order_id order_data current_user db = (Raise NotFound, db).
Proof.
  intros Hbin Hshort. unfold cancel_order, update_order. rewrite Hbin.
  unfold bind, orders_collection.find_one, orders_collection.update_one.
  rewrite (find_by_short_object_id _ _ Hshort).
  rewrite (proj2 (existsb_find_none _ _) (find_by_short_object_id _ (orders db) Hshort)).
  rewrite update_first_by_short_object_id by exact Hshort.
  rewrite mkdb_eta. split; reflexivity.
Qed.

Lemma of_str_none_cases (s : string) :
  ObjectId.of_str s = None ->
  ObjectId.binary s = None
  \/ exists bytes, ObjectId.binary s = Some bytes /\ ObjectId.of_bytes bytes = None.
Proof.
  unfold ObjectId.of_str. destruct (ObjectId.binary s) as [bytes|]; [|left; reflexivity].
  intros H. right. exists bytes. split; [reflexivity | exact H].
Qed.

(** What a successful [cancel_order] did. *)
Lemma cancel_order_ok now order_id current_user db resp db' :
  cancel_order now order_id current_user db = (Ok resp, db') ->
  exists oid o,
    ObjectId.of_str order_id = Some oid
    /\ find (by_id oid) (orders db) = Some o
    /\ (is_owner current_user o \/ has_admin_flag current_user)
    /\ (Order.status o = OrderStatus.PENDING \/ Order.status o = OrderStatus.CONFIRMED)
    /\ resp = serialize_order (cancelled now o)
    /\ db' = mkdb (update_first (by_id oid) (cancelled now) (orders db)) (users db).
Proof.
  intros Hrun.
  destruct (ObjectId.of_str order_id) as [oid|] eqn:Hid.
  2:{ destruct (of_str_none_cases _ Hid) as [Hbad|(bytes & Hbin & Hshort)].
      - unfold cancel_order in Hrun. rewrite Hbad in Hrun. discriminate.
      - rewrite (proj1 (short_order_id_not_found now order_id bytes empty_patch
                          current_user db Hbin Hshort)) in Hrun.
        discriminate. }
  rewrite (cancel_order_run _ _ _ _ _ Hid) in Hrun.
  destruct (find (by_id oid) (orders db)) as [o|] eqn:Hfind; [|discriminate].
  destruct (negb (bool_decide _) && negb (truthy_bool _)) eqn:Hr; [discriminate|].
  destruct (negb (_ || _)) eqn:Hn; [discriminate|].
  injection Hrun as <- <-.
  exists oid, o. split; [reflexivity|]. split; [exact Hfind|].
  split; [|split; [|split; reflexivity]].
  - apply andb_false_iff in Hr as [Hr|Hr]; apply negb_false_iff in Hr.
    + left. apply bool_decide_eq_true in Hr. exact Hr.
    + right. apply truthy_admin_flag. exact Hr.
  - destruct (Order.status o); simpl in Hn; try discriminate; auto.
Qed.

(** ** Administrative updates *)

Lemma update_data_snapshot order_data now o :
  same_snapshot o (update_data order_data now o).
Proof.
  unfold update_data, same_snapshot.
  destruct (OrderUpdate.status order_data), (OrderUpdate.payment_status order_data),
    (OrderUpdate.tracking_number order_data), (OrderUpdate.notes order_data);
    repeat split.
Qed.

(** X1. [update_order] on a stored order always succeeds; the order then
    stored and answered takes each of status, payment status, tracking
    number and notes from the patch where the patch gives one and keeps
    the old value where it does not, has [updated_at] set to the current
    time, and keeps its snapshot fields; other orders and the users are
    untouched. *)
Theorem update_order_effect now order_id oid order_data admin db o :
  ObjectId.of_str order_id = Some oid ->
  find (by_id oid) (orders db) = Some o ->
  exists o' db',
    update_order now order_id order_data admin db = (Ok (serialize_order o'), db')
    /\ find (by_id oid) (orders db') = Some o'
    /\ Order.status o'
       = match OrderUpdate.status order_data with Some v => v | None => Order.status o end
    /\ Order.payment_status o'
       = match OrderUpdate.payment_status order_data with
         | Some v => v | None => Order.payment_status o end
    /\ Order.tracking_number o'
       = match OrderUpdate.tracking_number order_data with
         | Some v => Some v | None => Order.tracking_number o end
    /\ Order.notes o'
       = match OrderUpdate.notes order_data with
         | Some v => Some v | None => Order.notes o end
    /\ Order.updated_at o' = now
    /\ same_snapshot o o'
    /\ users db' = users db
    /\ length (orders db') = length (orders db)
    /\ (forall oid', oid' <> oid ->
          find (by_id oid') (orders db') = find (by_id oid') (orders db)).
Proof.
  intros Hid Hfind.
  exists (update_data order_data now o).
  exists (mkdb (update_first (by_id oid) (update_data order_data now) (orders db))
               (users db)).
  assert (Hkeep : forall oid' x, by_id oid' (update_data order_data now x) = by_id oid' x)
    by (intros oid' x; unfold by_id; rewrite update_data_id; reflexivity).
  split; [rewrite (update_order_run _ _ _ _ _ _ Hid), Hfind; reflexivity|].
  split; [cbn [orders]; rewrite find_update_first_same by apply Hkeep;
          rewrite Hfind; reflexivity|].
  split; [unfold update_data;
          destruct (OrderUpdate.status order_data), (OrderUpdate.payment_status order_data),
            (OrderUpdate.tracking_number order_data), (OrderUpdate.notes order_data);
          reflexivity|].
  split; [unfold update_data;
          destruct (OrderUpdate.status order_data), (OrderUpdate.payment_status order_data),
            (OrderUpdate.tracking_number order_data), (OrderUpdate.notes order_data);
          reflexivity|].
  split; [unfold update_data;
          destruct (OrderUpdate.status order_data), (OrderUpdate.payment_status order_data),
            (OrderUpdate.tracking_number order_data), (OrderUpdate.notes order_data);
          reflexivity|].
  split; [unfold update_data;
          destruct (OrderUpdate.status order_data), (OrderUpdate.payment_status order_data),
            (OrderUpdate.tracking_number order_data), (OrderUpdate.notes order_data);
          reflexivity|].
  split; [reflexivity|].
  split; [apply update_data_snapshot|].
  split; [reflexivity|].
  split; [cbn [orders]; apply length_update_first|].
  intros oid' Hne. cbn [orders].
  apply find_update_first_other; [|apply Hkeep].
  intros x Hx. exact (by_id_other oid oid' x Hne Hx).
Qed.

Lemma update_order_effect_witness :
  exists o' db',
    update_order 1700000200 order_id_1
      (OrderUpdate.mk (Some OrderStatus.SHIPPED) None (Some "TCS-991") None)
      admin_user sample_store
    = (Ok (serialize_order o'), db')
    /\ Order.status o' = OrderStatus.SHIPPED
    /\ Order.payment_status o' = PaymentStatus.PENDING
    /\ Order.tracking_number o' = Some "TCS-991".
Proof.
  destruct (update_order_effect 1700000200 order_id_1 1%N
              (OrderUpdate.mk (Some OrderStatus.SHIPPED) None (Some "TCS-991") None)
              admin_user sample_store
              (stored_order 1%N (Some (ObjectId.str 7%N)) OrderStatus.PENDING)
              eq_refl eq_refl)
    as (o' & db' & Hrun & _ & Hs & Hp & Ht & _).
  exists o', db'. repeat split; assumption.
Defined.

(** X2. [update_order] with a well-formed id that no order has answers
    404 and leaves the store exactly as it was, although [update_one] has
    been issued. *)
Theorem update_order_not_found now order_id oid order_data admin db :
  ObjectId.of_str order_id = Some oid ->
  find (by_id oid) (orders db) = None ->
  update_order now order_id order_data admin db = (Raise NotFound, db).
Proof.
  intros Hid Hfind. rewrite (update_order_run _ _ _ _ _ _ Hid), Hfind. reflexivity.
Qed.

Lemma update_order_not_found_witness :
  update_order 1700000200 "0000000000000000000000ff" empty_patch admin_user sample_store
  = (Raise NotFound, sample_store).
Proof.
  apply (update_order_not_found 1700000200 "0000000000000000000000ff" 255%N);
    reflexivity.
Defined.

(** X3. Cancellation is not final for an admin: after a successful
    [cancel_order], [update_order] with a status patch succeeds and puts
    the order in any status asked for, pending included. *)
Theorem cancel_then_update_reopens now order_id current_user db resp db' :
  cancel_order now order_id current_user db = (Ok resp, db') ->
  OrderResponse.status resp = OrderStatus.CANCELLED
  /\ forall now' admin s,
       exists resp' db'',
         update_order now' order_id (status_patch s) admin db' = (Ok resp', db'')
         /\ OrderResponse.status resp' = s
         /\ OrderResponse.id resp' = OrderResponse.id resp.
Proof.
  intros Hrun.
  destruct (cancel_order_ok _ _ _ _ _ _ Hrun)
    as (oid & o & Hid & Hfind & _ & _ & -> & ->).
  split; [reflexivity|]. intros now' admin s.
  rewrite (update_order_run _ _ _ _ _ _ Hid). cbn [orders].
  rewrite find_update_first_same by reflexivity. rewrite Hfind. cbn [option_map].
  eexists. eexists. split; [reflexivity|]. split; reflexivity.
Qed.

Lemma cancel_then_update_reopens_witness :
  let o := cancelled 1700000100
             (stored_order 1%N (Some (ObjectId.str 7%N)) OrderStatus.PENDING) in
  let db' := mkdb [o] [customer; other_customer; admin_user] in
  cancel_order 1700000100 order_id_1 customer sample_store = (Ok (serialize_order o), db')
  /\ exists resp' db'',
       update_order 1700000200 order_id_1 (status_patch OrderStatus.PENDING)
         admin_user db' = (Ok resp', db'')
       /\ OrderResponse.status resp' = OrderStatus.PENDING
       /\ OrderResponse.id resp' = OrderResponse.id (serialize_order o).
Proof.
  intros o db'. split; [reflexivity|].
  exact (proj2 (cancel_then_update_reopens 1700000100 order_id_1 customer
                  sample_store (serialize_order o) db' eq_refl)
           1700000200 admin_user OrderStatus.PENDING).
Defined.

(** X4. A cancelled order cannot be cancelled again: after a successful
    [cancel_order], a second call by the same caller fails with
    InvalidTransition, and a call by anyone fails with Forbidden or
    InvalidTransition; neither touches the store. *)
Theorem cancel_order_twice now order_id current_user db resp db' :
  cancel_order now order_id current_user db = (Ok resp, db') ->
  (forall now', cancel_order now' order_id current_user db'
                = (Raise InvalidTransition, db'))
  /\ (forall now' other,
        cancel_order now' order_id other db' = (Raise Forbidden_cancel, db')
        \/ cancel_order now' order_id other db' = (Raise InvalidTransition, db')).
Proof.
  intros Hrun.
  destruct (cancel_order_ok _ _ _ _ _ _ Hrun)
    as (oid & o & Hid & Hfind & Hauth & _ & -> & ->).
  assert (Hfind' : forall u now',
             cancel_order now' order_id u
               (mkdb (update_first (by_id oid) (cancelled now) (orders db)) (users db))
             = if negb (bool_decide (Order.user_id o = Some (ObjectId.str (User._id u))))
                  && negb (truthy_bool (User.is_admin u))
               then (Raise Forbidden_cancel,
                     mkdb (update_first (by_id oid) (cancelled now) (orders db)) (users db))
               else (Raise InvalidTransition,
                     mkdb (update_first (by_id oid) (cancelled now) (orders db)) (users db))).
  { intros u now'. rewrite (cancel_order_run _ _ _ _ _ Hid). cbn [orders].
    rewrite find_update_first_same by reflexivity. rewrite Hfind. reflexivity. }
  split.
  - intros now'. rewrite Hfind'.
    destruct (negb (bool_decide _) && negb (truthy_bool _)) eqn:Hr; [|reflexivity].
    apply cancel_refused_iff in Hr. unfold is_owner in Hr, Hauth. tauto.
  - intros now' other. rewrite Hfind'.
    destruct (negb (bool_decide _) && negb (truthy_bool _)); [left | right]; reflexivity.
Qed.

Lemma cancel_order_twice_witness :
  let o := cancelled 1700000100
             (stored_order 1%N (Some (ObjectId.str 7%N)) OrderStatus.PENDING) in
  let db' := mkdb [o] [customer; other_customer; admin_user] in
  cancel_order 1700000100 order_id_1 customer sample_store = (Ok (serialize_order o), db')
  /\ cancel_order 1700000150 order_id_1 customer db' = (Raise InvalidTransition, db').
Proof.
  intros o db'. split; [reflexivity|].
  exact (proj1 (cancel_order_twice 1700000100 order_id_1 customer sample_store
                  (serialize_order o) db' eq_refl)
           1700000150).
Defined.

(** ** Creating an order, then reading it back *)

Lemma find_created_by_number doc db :
  duplicate_key doc db = false ->
  find (by_order_number (Order.order_number doc)) (orders db ++ [doc]) = Some doc.
Proof.
  intros Hdup. rewrite find_app_fresh by apply (fresh_keys _ _ Hdup).
  unfold by_order_number. rewrite String.eqb_refl. reflexivity.
Qed.

Lemma find_created_by_id doc db :
  duplicate_key doc db = false ->
  find (by_id (Order._id doc)) (orders db ++ [doc]) = Some doc.
Proof.
  intros Hdup. rewrite find_app_fresh by apply (fresh_keys _ _ Hdup).
  unfold by_id, ObjectId.eqb. rewrite N.eqb_refl. reflexivity.
Qed.

Lemma order_doc_id timestamp random_part now inserted_id order_data current_user :
  Order._id (order_doc timestamp random_part now inserted_id order_data current_user)
  = inserted_id.
Proof.
  unfold order_doc.
  destruct (String.eqb (PaymentMethod.value _) "card"); reflexivity.
Qed.

Lemma order_doc_number timestamp random_part now inserted_id order_data current_user :
  Order.order_number
    (order_doc timestamp random_part now inserted_id order_data current_user)
  = generate_order_number timestamp random_part.
Proof.
  unfold order_doc.
  destruct (String.eqb (PaymentMethod.value _) "card"); reflexivity.
Qed.

Lemma order_doc_email timestamp random_part now inserted_id order_data current_user :
  Order.email (order_doc timestamp random_part now inserted_id order_data current_user)
  = OrderCreate.email order_data.
Proof.
  unfold order_doc.
  destruct (String.eqb (PaymentMethod.value _) "card"); reflexivity.
Qed.

Lemma order_doc_cancellable timestamp random_part now inserted_id order_data current_user :
  let doc := order_doc timestamp random_part now inserted_id order_data current_user in
  Order.status doc = OrderStatus.PENDING \/ Order.status doc = OrderStatus.CONFIRMED.
Proof.
  unfold order_doc.
  destruct (String.eqb (PaymentMethod.value _) "card"); [right | left]; reflexivity.
Qed.

(** [get_order] lets the creator of an order through. *)
Lemma get_order_creator order_id db o current_user :
  fetched order_id db = Some o ->
  Order.user_id o = option_map (fun u => ObjectId.str (User._id u)) current_user ->
  get_order order_id current_user db = (Ok (serialize_order o), db).
Proof.
  intros Hfetch Howner. rewrite get_order_run, Hfetch.
  destruct current_user as [u|]; [|reflexivity].
  cbn [option_map] in Howner. rewrite Howner.
  rewrite bool_decide_eq_true_2 by reflexivity.
  rewrite andb_false_r. reflexivity.
Qed.

Lemma same_order_response_refl (r : OrderResponse.t) : same_order_response r r.
Proof. unfold same_order_response. repeat split. Qed.

Lemma fetched_by_id order_id oid db :
  ObjectId.of_str order_id = Some oid ->
  fetched order_id db = find (by_id oid) (orders db).
Proof.
  intros Hid. destruct (of_str_binary _ _ Hid) as (bytes & Hbin & Hoid).
  unfold fetched. rewrite Hbin, (by_object_id_of_bytes _ _ Hoid). reflexivity.
Qed.

(** X5. Insert/lookup round trip: once [create_order] has succeeded,
    [get_order] in the new store finds the order, for its creator and for
    an anonymous caller, under the order number and (for a 12-byte id)
    under the id of the response, and answers what [create_order]
    answered in every field but [created_at]; it leaves the store as it
    is. *)
Theorem create_then_get timestamp random_part now inserted_id order_data
    current_user db resp db' :
  create_order timestamp random_part now inserted_id order_data current_user db
    = (Ok resp, db') ->
  (inserted_id < 2 ^ 96)%N ->
  forall order_id caller,
    order_id = OrderResponse.order_number resp \/ order_id = OrderResponse.id resp ->
    caller = current_user \/ caller = None ->
    exists resp',
      get_order order_id caller db' = (Ok resp', db')
      /\ same_order_response resp resp'.
Proof.
  intros Hrun Hid order_id caller Hkey Hcaller.
  destruct (create_order_ok _ _ _ _ _ _ _ _ _ Hrun) as (Hdup & -> & ->).
  set (doc := order_doc timestamp random_part now inserted_id order_data current_user) in *.
  assert (Hnum : fetched (Order.order_number doc)
                   (mkdb (orders db ++ [doc]) (users db)) = Some doc).
  { assert (Hbad : ObjectId.binary (Order.order_number doc) = None)
      by (unfold doc; rewrite order_doc_number; apply order_number_not_ObjectId).
    unfold fetched. rewrite Hbad. cbn [orders].
    apply find_created_by_number. exact Hdup. }
  assert (Hbyid : fetched (ObjectId.str (Order._id doc))
                    (mkdb (orders db ++ [doc]) (users db)) = Some doc).
  { assert (Hgood : ObjectId.of_str (ObjectId.str (Order._id doc)) = Some (Order._id doc))
      by (apply ObjectId_of_str_str; unfold doc; rewrite order_doc_id; exact Hid).
    rewrite (fetched_by_id _ _ _ Hgood). cbn [orders].
    apply find_created_by_id. exact Hdup. }
  assert (Hfetch : fetched order_id (mkdb (orders db ++ [doc]) (users db)) = Some doc).
  { destruct Hkey as [-> | ->]; [exact Hnum | exact Hbyid]. }
  exists (serialize_order doc). split; [|apply same_order_response_refl].
  destruct Hcaller as [-> | ->].
  - apply get_order_creator; [exact Hfetch | apply order_doc_owner].
  - rewrite get_order_run, Hfetch. reflexivity.
Qed.

Lemma create_then_get_witness :
  exists resp db' resp1 resp2,
    create_order "250102" "XYZ789" 1700000300 2%N sample_request (Some customer) sample_store
      = (Ok resp, db')
    /\ get_order "AJR-250102-XYZ789" (Some customer) db' = (Ok resp1, db')
    /\ same_order_response resp resp1
    /\ get_order "000000000000000000000002" None db' = (Ok resp2, db')
    /\ same_order_response resp resp2.
Proof.
  pose proof (create_then_get "250102" "XYZ789" 1700000300 2%N sample_request
                (Some customer) sample_store _ _ eq_refl eq_refl) as Hget.
  destruct (Hget "AJR-250102-XYZ789" (Some customer) (or_introl eq_refl)
              (or_introl eq_refl)) as (resp1 & Hrun1 & Hsame1).
  destruct (Hget "000000000000000000000002" None (or_intror eq_refl)
              (or_intror eq_refl)) as (resp2 & Hrun2 & Hsame2).
  eexists. eexists. exists resp1, resp2.
  split; [reflexivity|]. split; [exact Hrun1|]. split; [exact Hsame1|].
  split; [exact Hrun2 | exact Hsame2].
Defined.

(** X6. An order placed with an all-lower-case contact email can be
    tracked: once [create_order] has succeeded, [track_order] with the
    order number of the response and any ASCII email whose lower-case form
    is the contact email of the request (any mix of upper and lower case
    of it) finds the order and answers what [create_order] answered in
    every field but [created_at]. *)
Theorem create_then_track timestamp random_part now inserted_id order_data
    current_user db resp db' email :
  create_order timestamp random_part now inserted_id order_data current_user db
    = (Ok resp, db') ->
  is_ascii email = true ->
  lower email = OrderCreate.email order_data ->
  exists resp',
    track_order (OrderResponse.order_number resp) email db' = (Ok resp', db')
    /\ same_order_response resp resp'.
Proof.
  intros Hrun _ Hemail.
  destruct (create_order_ok _ _ _ _ _ _ _ _ _ Hrun) as (Hdup & -> & ->).
  set (doc := order_doc timestamp random_part now inserted_id order_data current_user) in *.
  exists (serialize_order doc). split; [|apply same_order_response_refl].
  rewrite track_order_run. cbn [orders].
  change (OrderResponse.order_number (serialize_order doc)) with (Order.order_number doc).
  rewrite find_app_fresh.
  - unfold by_order_number_and_email.
    rewrite String.eqb_refl, Hemail. unfold doc at 1. rewrite order_doc_email.
    rewrite String.eqb_refl. reflexivity.
  - intros o Hin. unfold by_order_number_and_email.
    pose proof (proj2 (fresh_keys _ _ Hdup) o Hin) as Hn.
    unfold by_order_number in Hn. rewrite Hn. reflexivity.
Qed.

Lemma create_then_track_witness :
  exists resp db' resp',
    create_order "250102" "XYZ789" 1700000300 2%N sample_request None sample_store
      = (Ok resp, db')
    /\ track_order "AJR-250102-XYZ789" "Sana@Example.COM" db' = (Ok resp', db')
    /\ same_order_response resp resp'.
Proof.
  destruct (create_then_track "250102" "XYZ789" 1700000300 2%N sample_request None
              sample_store _ _ "Sana@Example.COM" eq_refl eq_refl eq_refl)
    as (resp' & Hrun & Hsame).
  eexists. eexists. exists resp'.
  split; [reflexivity|]. split; assumption.
Defined.

Lemma create_then_cancel_run timestamp random_part now inserted_id order_data
    user db resp db' now' :
  create_order timestamp random_part now inserted_id order_data (Some user) db
    = (Ok resp, db') ->
  (inserted_id < 2 ^ 96)%N ->
  exists resp' db'',
    cancel_order now' (OrderResponse.id resp) user db' = (Ok resp', db'')
    /\ OrderResponse.status resp' = OrderStatus.CANCELLED
    /\ OrderResponse.id resp' = OrderResponse.id resp
    /\ OrderResponse.total resp' = OrderResponse.total resp.
Proof.
  intros Hrun Hid.
  destruct (create_order_ok _ _ _ _ _ _ _ _ _ Hrun) as (Hdup & -> & ->).
  set (doc := order_doc timestamp random_part now inserted_id order_data (Some user)) in *.
  assert (Hgood : ObjectId.of_str (ObjectId.str (Order._id doc)) = Some (Order._id doc))
    by (apply ObjectId_of_str_str; unfold doc; rewrite order_doc_id; exact Hid).
  change (OrderResponse.id (serialize_order doc)) with (ObjectId.str (Order._id doc)).
  rewrite (cancel_order_run _ _ _ _ _ Hgood). cbn [orders].
  rewrite (find_created_by_id _ _ Hdup).
  assert (Hown : Order.user_id doc = Some (ObjectId.str (User._id user)))
    by (unfold doc; rewrite order_doc_owner; reflexivity).
  rewrite bool_decide_eq_true_2 by exact Hown. cbn [negb andb].
  destruct (order_doc_cancellable timestamp random_part now inserted_id order_data
              (Some user)) as [Hs|Hs]; fold doc in Hs; rewrite Hs; cbn;
    eexists; eexists; (split; [reflexivity|]); repeat split.
Qed.

(** X7. Whoever places an order while logged in can cancel it: after a
    successful [create_order] for a caller, [cancel_order] by that caller
    under the id of the response succeeds, for either payment method
    (the new order is pending or confirmed), and answers the order as
    cancelled. *)
Theorem create_then_cancel timestamp random_part now inserted_id order_data
    user db resp db' now' :
  create_order timestamp random_part now inserted_id order_data (Some user) db
    = (Ok resp, db') ->
  (inserted_id < 2 ^ 96)%N ->
  exists resp' db'',
    cancel_order now' (OrderResponse.id resp) user db' = (Ok resp', db'')
    /\ OrderResponse.status resp' = OrderStatus.CANCELLED
    /\ OrderResponse.id resp' = OrderResponse.id resp
    /\ OrderResponse.total resp' = OrderResponse.total resp.
Proof. exact (create_then_cancel_run _ _ _ _ _ _ _ _ _ _). Qed.

Lemma create_then_cancel_witness :
  let doc := order_doc "250102" "XYZ789" 1700000300 2%N sample_request (Some customer) in
  let db' := mkdb (orders sample_store ++ [doc]) (users sample_store) in
  create_order "250102" "XYZ789" 1700000300 2%N sample_request (Some customer) sample_store
    = (Ok (serialize_order doc), db')
  /\ exists resp' db'',
       cancel_order 1700000400 (OrderResponse.id (serialize_order doc)) customer db'
         = (Ok resp', db'')
       /\ OrderResponse.status resp' = OrderStatus.CANCELLED
       /\ OrderResponse.id resp' = OrderResponse.id (serialize_order doc)
       /\ OrderResponse.total resp' = OrderResponse.total (serialize_order doc).
Proof.
  intros doc db'. split; [reflexivity|].
  exact (create_then_cancel "250102" "XYZ789" 1700000300 2%N sample_request customer
           sample_store (serialize_order doc) db' 1700000400 eq_refl eq_refl).
Defined.

(** X8. The public order number opens an order for reading only:
    [get_order] looks an order number up as a number, never as an id,
    while [cancel_order] and [update_order] refuse every order number as
    an invalid id, without touching the store. *)
Theorem order_number_reads_only timestamp random_part now current_user
    order_data db :
  let number := generate_order_number timestamp random_part in
  fetched number db = find (by_order_number number) (orders db)
  /\ cancel_order now number current_user db = (Raise InvalidOrderId, db)
  /\ update_order now number order_data current_user db = (Raise InvalidOrderId, db).
Proof.
  intros number. unfold fetched, cancel_order, update_order, number.
  rewrite order_number_not_ObjectId. repeat split.
Qed.

(** ** What every sequence of requests preserves *)

Lemma map_update_first {A B} (g : A -> B) (p : A -> bool) (f : A -> A) (l : list A) :
  (forall x, g (f x) = g x) -> map g (update_first p f l) = map g l.
Proof.
  intros Hg. induction l as [|x l IH]; [reflexivity|].
  simpl. destruct (p x); simpl; [rewrite Hg | rewrite IH]; reflexivity.
Qed.

Lemma Forall_update_first {A} (P : A -> Prop) (p : A -> bool) (f : A -> A) (l : list A) :
  (forall x, P x -> P (f x)) -> Forall P l -> Forall P (update_first p f l).
Proof.
  intros Hf. induction 1 as [|x l Hx Hl IH]; simpl; [constructor|].
  destruct (p x); constructor; auto.
Qed.

Lemma Forall2_update_first {A} (R : A -> A -> Prop) (p : A -> bool) (f : A -> A)
    (l : list A) :
  (forall x, R x x) -> (forall x, R x (f x)) -> Forall2 R l (update_first p f l).
Proof.
  intros Hrefl Hf. induction l as [|x l IH]; simpl; [constructor|].
  destruct (p x); constructor; auto.
  clear IH. induction l; constructor; auto.
Qed.

Lemma same_snapshot_refl o : same_snapshot o o.
Proof. unfold same_snapshot. repeat split. Qed.

Lemma same_snapshot_trans o1 o2 o3 :
  same_snapshot o1 o2 -> same_snapshot o2 o3 -> same_snapshot o1 o3.
Proof.
  unfold same_snapshot. intros H12 H23.
  repeat match goal with H : _ /\ _ |- _ => destruct H end.
  repeat split; congruence.
Qed.

Lemma cancelled_snapshot now o : same_snapshot o (cancelled now o).
Proof. unfold same_snapshot. repeat split. Qed.

Lemma consistent_same_snapshot o o' :
  same_snapshot o o' -> consistent_order o -> consistent_order o'.
Proof.
  unfold same_snapshot, consistent_order.
  intros Hs Hc.
  repeat match goal with H : _ /\ _ |- _ => destruct H end.
  repeat match goal with H : Order._id _ = _ |- _ => clear H end.
  split; [congruence|]. split; [congruence|]. split; [congruence|].
  match goal with H : Order.user_id o' = _ |- _ => rewrite H end. assumption.
Qed.

Lemma order_doc_consistent timestamp random_part now inserted_id order_data current_user :
  consistent_order
    (order_doc timestamp random_part now inserted_id order_data current_user).
Proof.
  unfold consistent_order.
  rewrite order_doc_subtotal, order_doc_shipping_cost, order_doc_owner.
  pose proof (order_doc_total timestamp random_part now inserted_id order_data
                current_user) as Ht. cbv zeta in Ht.
  rewrite Ht, order_doc_subtotal, order_doc_shipping_cost.
  split.
  { unfold order_doc. destruct (String.eqb (PaymentMethod.value _) "card"); reflexivity. }
  split; [reflexivity|]. split.
  - destruct (String.eqb _ "express"); [auto|]. destruct (50000 <=? _); auto.
  - destruct current_user as [u|]; [right; exists (User._id u) | left]; reflexivity.
Qed.

(** The store each handler leaves behind. *)
Lemma serve_cases r db :
  serve r db = db
  \/ (exists timestamp random_part now inserted_id order_data current_user,
        let doc := order_doc timestamp random_part now inserted_id order_data
                     current_user in
        duplicate_key doc db = false
        /\ serve r db = mkdb (orders db ++ [doc]) (users db))
  \/ (exists oid f,
        (forall o, same_snapshot o (f o))
        /\ serve r db = mkdb (update_first (by_id oid) f (orders db)) (users db)).
Proof.
  destruct r; cbn [serve].
  - pose proof (create_order_run timestamp random_part now inserted_id order_data
                  current_user db) as Hrun. cbv zeta in Hrun.
    destruct (negb (orders_collection.encodable _));
      [left; rewrite Hrun; reflexivity|].
    destruct (duplicate_key _ db) eqn:Hdup.
    + left. rewrite Hrun. reflexivity.
    + right; left.
      exists timestamp, random_part, now, inserted_id, order_data, current_user.
      cbv zeta. split; [exact Hdup|]. rewrite Hrun. reflexivity.
  - left. reflexivity.
  - left. rewrite get_order_run.
    destruct (fetched order_id db) as [o|]; [|reflexivity].
    destruct current_user as [u|]; [|reflexivity].
    destruct (_ && _ && _); reflexivity.
  - left. rewrite track_order_run.
    destruct (find _ (orders db)); reflexivity.
  - left. reflexivity.
  - destruct (ObjectId.of_str order_id) as [oid|] eqn:Hid.
    + rewrite (update_order_run _ _ _ _ _ _ Hid).
      destruct (find (by_id oid) (orders db)) as [o|]; [|left; reflexivity].
      right; right. exists oid, (update_data order_data now).
      split; [intros x; apply update_data_snapshot | reflexivity].
    + left. destruct (of_str_none_cases _ Hid) as [Hbad|(bytes & Hbin & Hshort)].
      * unfold update_order. rewrite Hbad. reflexivity.
      * rewrite (proj2 (short_order_id_not_found now order_id bytes order_data admin
                          db Hbin Hshort)). reflexivity.
  - destruct (ObjectId.of_str order_id) as [oid|] eqn:Hid.
    + rewrite (cancel_order_run _ _ _ _ _ Hid).
      destruct (find (by_id oid) (orders db)) as [o|]; [|left; reflexivity].
      destruct (negb (bool_decide _) && negb (truthy_bool _)); [left; reflexivity|].
      destruct (negb (_ || _)); [left; reflexivity|].
      right; right. exists oid, (cancelled now).
      split; [intros x; apply cancelled_snapshot | reflexivity].
    + left. destruct (of_str_none_cases _ Hid) as [Hbad|(bytes & Hbin & Hshort)].
      * unfold cancel_order. rewrite Hbad. reflexivity.
      * rewrite (proj1 (short_order_id_not_found now order_id bytes empty_patch
                          current_user db Hbin Hshort)). reflexivity.
  - left. reflexivity.
Qed.

Lemma store_invariant_step r db :
  store_invariant db -> store_invariant (serve r db).
Proof.
  intros (Hids & Hnums & Hcons).
  destruct (serve_cases r db) as [-> | [Hnew | Hupd]]; [repeat split; assumption | |].
  - destruct Hnew as (timestamp & random_part & now & inserted_id & order_data
                      & current_user & Hdup & ->).
    cbv zeta in Hdup.
    set (doc := order_doc timestamp random_part now inserted_id order_data
                  current_user) in *.
    destruct (fresh_keys _ _ Hdup) as [Hid Hnum].
    unfold store_invariant. cbn [orders]. rewrite !map_app. cbn [map].
    split; [|split].
    + apply NoDup_app. split; [exact Hids|]. split; [|apply NoDup_singleton].
      intros x Hx Hx'. apply list_elem_of_In in Hx. apply in_map_iff in Hx as (o & <- & Ho).
      apply list_elem_of_In in Hx'. destruct Hx' as [Heq|[]].
      specialize (Hid o Ho). unfold by_id, ObjectId.eqb in Hid.
      apply N.eqb_neq in Hid. congruence.
    + apply NoDup_app. split; [exact Hnums|]. split; [|apply NoDup_singleton].
      intros x Hx Hx'. apply list_elem_of_In in Hx. apply in_map_iff in Hx as (o & <- & Ho).
      apply list_elem_of_In in Hx'. destruct Hx' as [Heq|[]].
      specialize (Hnum o Ho). unfold by_order_number in Hnum.
      apply String.eqb_neq in Hnum. congruence.
    + apply Forall_app. split; [exact Hcons|].
      apply Forall_singleton. apply order_doc_consistent.
  - destruct Hupd as (oid & f & Hf & ->).
    unfold store_invariant. cbn [orders]. split; [|split].
    + rewrite map_update_first; [exact Hids|]. intros x. apply (Hf x).
    + rewrite map_update_first; [exact Hnums|]. intros x. apply (Hf x).
    + apply Forall_update_first; [|exact Hcons].
      intros x. apply consistent_same_snapshot, Hf.
Qed.

Lemma store_invariant_steps rs db :
  store_invariant db -> store_invariant (serve_all rs db).
Proof.
  revert db. induction rs as [|r rs IH]; intros db Hinv; [exact Hinv|].
  apply IH, store_invariant_step, Hinv.
Qed.

(** X9. Whatever requests are served, in whatever order, starting from
    an empty [orders] collection, the store never holds two orders with
    the same id or the same order number, and every stored order keeps
    [subtotal] equal to the sum over its items, [total = subtotal +
    shipping_cost], a shipping cost among 0, 1500 and 3000, and an owner
    that is null or a user id. *)
Theorem store_invariant_always (rs : list request) (us : list User.t) :
  store_invariant (serve_all rs (mkdb [] us)).
Proof.
  apply store_invariant_steps. unfold store_invariant. cbn [orders map].
  repeat split; constructor.
Qed.

Lemma extends_refl db : extends db db.
Proof.
  exists (orders db), []. rewrite app_nil_r. repeat split.
  induction (orders db); constructor; [apply same_snapshot_refl | assumption].
Qed.

Lemma extends_trans db1 db2 db3 :
  extends db1 db2 -> extends db2 db3 -> extends db1 db3.
Proof.
  intros (old1 & add1 & H1 & Hf1 & Hu1) (old2 & add2 & H2 & Hf2 & Hu2).
  rewrite H1 in Hf2. apply Forall2_app_inv_l in Hf2 as (k1 & k2 & Hk1 & Hk2 & ->).
  exists k1, (k2 ++ add2)%list. split; [rewrite H2, app_assoc; reflexivity|].
  split; [|congruence].
  exact (Forall2_trans _ _ _ _ _ _ same_snapshot_trans Hf1 Hk1).
Qed.

Lemma extends_step r db : extends db (serve r db).
Proof.
  destruct (serve_cases r db) as [-> | [Hnew | Hupd]]; [apply extends_refl | |].
  - destruct Hnew as (timestamp & random_part & now & inserted_id & order_data
                      & current_user & _ & ->).
    exists (orders db), [order_doc timestamp random_part now inserted_id order_data
                           current_user].
    repeat split.
    induction (orders db); constructor; [apply same_snapshot_refl | assumption].
  - destruct Hupd as (oid & f & Hf & ->).
    exists (update_first (by_id oid) f (orders db)), []. rewrite app_nil_r.
    repeat split.
    apply Forall2_update_first; [apply same_snapshot_refl | exact Hf].
Qed.

(** X10. No sequence of requests deletes or reorders a stored order or
    changes any of its snapshot fields (id, order number, owner, items,
    shipping address, email, subtotal, shipping cost, total, payment
    method, shipping method, creation time): the orders of the store at
    the start are still there, in place, followed by the new ones.  The
    users collection is never written. *)
Theorem snapshots_never_change (rs : list request) (db : database) :
  extends db (serve_all rs db).
Proof.
  revert db. induction rs as [|r rs IH]; intros db; [apply extends_refl|].
  exact (extends_trans _ _ _ (extends_step r db) (IH (serve r db))).
Qed.

(** ** Amounts *)

Lemma items_total_perm (items items' : list OrderItem.t) :
  Permutation items items' -> items_total items = items_total items'.
Proof.
  induction 1; simpl; lia.
Qed.

(** X11. The amounts of an order do not depend on the order of the
    lines in the cart: two requests that differ only by a permutation of
    their items get the same subtotal, shipping cost and total. *)
Theorem create_order_cart_order timestamp random_part now inserted_id
    order_data order_data' current_user :
  Permutation (OrderCreate.items order_data) (OrderCreate.items order_data') ->
  OrderCreate.shipping_method order_data = OrderCreate.shipping_method order_data' ->
  let doc := order_doc timestamp random_part now inserted_id order_data current_user in
  let doc' := order_doc timestamp random_part now inserted_id order_data' current_user in
  Order.subtotal doc = Order.subtotal doc'
  /\ Order.shipping_cost doc = Order.shipping_cost doc'
  /\ Order.total doc = Order.total doc'.
Proof.
  intros Hperm Hship doc doc'.
  pose proof (order_doc_total timestamp random_part now inserted_id order_data
                current_user) as Ht. cbv zeta in Ht.
  pose proof (order_doc_total timestamp random_part now inserted_id order_data'
                current_user) as Ht'. cbv zeta in Ht'.
  unfold doc, doc'. rewrite Ht, Ht'.
  rewrite !order_doc_subtotal, !order_doc_shipping_cost.
  rewrite <- Hship, (items_total_perm _ _ Hperm). repeat split.
Qed.

Lemma create_order_cart_order_witness :
  let a := sample_item 2500 2 in
  let b := sample_item 900 1 in
  let req items := OrderCreate.mk items sample_address "sana@example.com"
                     PaymentMethod.COD "standard" None in
  Order.total (order_doc "250102" "XYZ789" 1700000300 2%N (req [a; b]) None)
  = Order.total (order_doc "250102" "XYZ789" 1700000300 2%N (req [b; a]) None).
Proof.
  intros a b req.
  exact (proj2 (proj2 (create_order_cart_order "250102" "XYZ789" 1700000300 2%N
                         (req [a; b]) (req [b; a]) None
                         (perm_swap b a []) eq_refl))).
Defined.

Lemma items_total_nonneg (items : list OrderItem.t) :
  Forall (fun item => 0 <= OrderItem.price item /\ 0 <= OrderItem.quantity item) items ->
  0 <= items_total items.
Proof.
  induction 1 as [|item rest [Hp Hq] _ IH]; simpl; [lia|nia].
Qed.

(** X12. When no line has a negative price or quantity, the subtotal is
    not negative, the total lies between the subtotal and the subtotal
    plus 3000, and no order totals less than 1500, the empty cart
    included. *)
Theorem create_order_total_bounds timestamp random_part now inserted_id
    order_data current_user :
  Forall (fun item => 0 <= OrderItem.price item /\ 0 <= OrderItem.quantity item)
         (OrderCreate.items order_data) ->
  let doc := order_doc timestamp random_part now inserted_id order_data current_user in
  0 <= Order.subtotal doc
  /\ Order.subtotal doc <= Order.total doc <= Order.subtotal doc + 3000
  /\ 1500 <= Order.total doc.
Proof.
  intros Hpos doc.
  pose proof (order_doc_total timestamp random_part now inserted_id order_data
                current_user) as Ht. cbv zeta in Ht.
  unfold doc. rewrite Ht, order_doc_subtotal, order_doc_shipping_cost.
  pose proof (items_total_nonneg _ Hpos) as Hnn.
  destruct (String.eqb _ "express"); [lia|].
  destruct (Z.leb_spec 50000 (items_total (OrderCreate.items order_data))); lia.
Qed.

Lemma create_order_total_bounds_witness :
  1500 <= Order.total (order_doc "250102" "XYZ789" 1700000300 2%N sample_request None).
Proof.
  apply (create_order_total_bounds "250102" "XYZ789" 1700000300 2%N sample_request None).
  repeat constructor; discriminate.
Defined.

(** ** Resolving the caller *)

Section caller_properties.
Context {Tag : Type} `{EqDecision Tag}.
Variable sign : string -> string -> jose.payload -> Tag.

Lemma token_subject_raise now token e :
  token_subject sign now token = Raise e -> e = credentials_exception.
Proof.
  unfold token_subject.
  destruct (jose.decode sign now token settings.SECRET_KEY [settings.ALGORITHM])
    as [payload|e'] eqn:Hdec.
  - destruct (payload !! "sub"); [discriminate|]. intros [= <-]. reflexivity.
  - assert (He' : e' = JWTError).
    { unfold jose.decode in Hdec.
      destruct token as [alg body signature|raw]; [|congruence].
      destruct (negb (existsb _ _)); [congruence|].
      destruct (negb (bool_decide _)); [congruence|].
      destruct body; [|congruence].
      destruct (jose.claims_refused _ _); congruence. }
    subst e'. intros [= <-]. reflexivity.
Qed.

(** [get_current_user] on a bearer token, in one equation. *)
Lemma get_current_user_run now alg body signature db :
  get_current_user sign now (Some (jose.Compact alg body signature)) db
  = match token_subject sign now (jose.Compact alg body signature) with
    | Raise e => (Raise e, db)
    | Ok (jose.JInt _) => (Raise InvalidId, db)
    | Ok (jose.JStr user_id) =>
        match ObjectId.binary user_id with
        | None => (Raise InvalidId, db)
        | Some oid =>
            match find (user_by_object_id oid) (users db) with
            | None => (Raise credentials_exception, db)
            | Some user => (Ok (Some user), db)
            end
        end
    end.
Proof.
  unfold get_current_user. cbn [no_token].
  destruct (token_subject sign now (jose.Compact alg body signature)) as [[s|n]|e];
    try reflexivity.
  destruct (ObjectId.binary s) as [oid|]; [|reflexivity].
  unfold bind, users_collection.find_one.
  destruct (find (user_by_object_id oid) (users db)); reflexivity.
Qed.

(** The same for a subject that spells a user id. *)
Lemma get_current_user_subject now alg body signature db user_id oid :
  token_subject sign now (jose.Compact alg body signature) = Ok (jose.JStr user_id) ->
  ObjectId.of_str user_id = Some oid ->
  get_current_user sign now (Some (jose.Compact alg body signature)) db
  = match find (user_by_id oid) (users db) with
    | None => (Raise credentials_exception, db)
    | Some user => (Ok (Some user), db)
    end.
Proof.
  intros Hsub Hid. destruct (of_str_binary _ _ Hid) as (bytes & Hbin & Hoid).
  rewrite get_current_user_run, Hsub, Hbin, (user_by_object_id_of_bytes _ _ Hoid).
  reflexivity.
Qed.

(** C7. Token round-trip: for every subject id and positive ttl, verifying
    a token right after issuance (and at any time up to its expiry)
    recovers exactly that subject id, and [get_current_user] answers the
    user stored under it; verifying the same token once the ttl has
    elapsed fails with Invalid, the 401 [credentials_exception]; and so
    does verifying any token whose signature does not verify, whose
    payload is not a JSON object, or which is not a token at all.  The
    store is never written. *)
Theorem token_round_trip now (sub : string) (ttl : Z) :
  0 < ttl ->
  let token := create_access_token sign now {["sub" := jose.JStr sub]} (Some ttl) in
  token_subject sign now token = Ok (jose.JStr sub)
  /\ (forall now', now' <= now + ttl ->
        token_subject sign now' token = Ok (jose.JStr sub))
  /\ (forall now', now + ttl < now' ->
        token_subject sign now' token = Raise credentials_exception)
  /\ (forall now' alg body signature,
        sign settings.SECRET_KEY alg body <> signature ->
        token_subject sign now' (jose.Compact alg body signature)
        = Raise credentials_exception)
  /\ (forall now' alg raw signature,
        token_subject sign now' (jose.Compact alg (jose.NotJsonObject raw) signature)
        = Raise credentials_exception)
  /\ (forall now' raw,
        token_subject sign now' (jose.NotCompact raw) = Raise credentials_exception)
  /\ (forall now' oid db,
        now' <= now + ttl ->
        ObjectId.of_str sub = Some oid ->
        get_current_user sign now' (Some token) db
        = match find (user_by_id oid) (users db) with
          | Some user => (Ok (Some user), db)
          | None => (Raise credentials_exception, db)
          end)
  /\ (forall now' db,
        now + ttl < now' ->
        get_current_user sign now' (Some token) db = (Raise credentials_exception, db))
  /\ (forall now' alg body signature db,
        sign settings.SECRET_KEY alg body <> signature ->
        get_current_user sign now' (Some (jose.Compact alg body signature)) db
        = (Raise credentials_exception, db))
  /\ (forall now' alg raw signature db,
        get_current_user sign now'
          (Some (jose.Compact alg (jose.NotJsonObject raw) signature)) db
        = (Raise credentials_exception, db))
  /\ (forall now' raw db,
        raw <> EmptyString ->
        get_current_user sign now' (Some (jose.NotCompact raw)) db
        = (Raise credentials_exception, db)).
Proof.
  intros Httl token.
  assert (Hne : ttl <> 0) by lia.
  assert (Hbadsig : forall now' alg body signature,
            sign settings.SECRET_KEY alg body <> signature ->
            token_subject sign now' (jose.Compact alg body signature)
            = Raise credentials_exception).
  { intros now' alg body signature Hsig. unfold token_subject, jose.decode.
    destruct (negb (existsb _ _)); [reflexivity|].
    rewrite bool_decide_eq_false_2 by exact Hsig. reflexivity. }
  assert (Hbadbody : forall now' alg raw signature,
            token_subject sign now' (jose.Compact alg (jose.NotJsonObject raw) signature)
            = Raise credentials_exception).
  { intros now' alg raw signature. unfold token_subject, jose.decode.
    destruct (negb (existsb _ _)); [reflexivity|].
    destruct (negb (bool_decide _)); reflexivity. }
  assert (Hfresh : forall now', now' <= now + ttl ->
            token_subject sign now' token = Ok (jose.JStr sub)).
  { intros now' Hle. unfold token. rewrite (token_subject_issued _ _ _ _ _ Hne).
    destruct (Z.ltb_spec (now + ttl) now'); [lia | reflexivity]. }
  assert (Hstale : forall now', now + ttl < now' ->
            token_subject sign now' token = Raise credentials_exception).
  { intros now' Hlt. unfold token. rewrite (token_subject_issued _ _ _ _ _ Hne).
    destruct (Z.ltb_spec (now + ttl) now'); [reflexivity | lia]. }
  assert (Hcompact : exists alg body signature,
            token = jose.Compact alg body signature)
    by (unfold token, create_access_token, jose.encode; eauto).
  destruct Hcompact as (alg0 & body0 & signature0 & Htok).
  split; [apply Hfresh; lia|].
  split; [exact Hfresh|]. split; [exact Hstale|].
  split; [exact Hbadsig|]. split; [exact Hbadbody|].
  split; [intros now' raw; reflexivity|].
  split; [|split; [|split; [|split]]].
  - intros now' oid db Hle Hid.
    pose proof (Hfresh now' Hle) as Hsub. rewrite Htok in Hsub. rewrite Htok.
    rewrite (get_current_user_subject _ _ _ _ _ _ _ Hsub Hid).
    destruct (find (user_by_id oid) (users db)); reflexivity.
  - intros now' db Hlt.
    pose proof (Hstale now' Hlt) as Hsub. rewrite Htok in Hsub. rewrite Htok.
    rewrite get_current_user_run, Hsub. reflexivity.
  - intros now' alg body signature db Hsig.
    rewrite get_current_user_run, (Hbadsig now' alg body signature Hsig). reflexivity.
  - intros now' alg raw signature db.
    rewrite get_current_user_run, Hbadbody. reflexivity.
  - intros now' raw db Hraw. destruct raw as [|c raw]; [contradiction | reflexivity].
Qed.

Lemma login_token_subject now now' user :
  token_subject sign now' (login_token sign now user)
  = if now + 3600 <? now' then Raise credentials_exception
    else Ok (jose.JStr (ObjectId.str (User._id user))).
Proof.
  unfold login_token.
  rewrite token_subject_issued by discriminate. reflexivity.
Qed.

Lemma login_token_compact now user :
  exists alg body signature,
    login_token sign now user = jose.Compact alg body signature.
Proof. unfold login_token, create_access_token, jose.encode. eauto. Qed.

Lemma get_current_user_login now now' user db :
  (User._id user < 2 ^ 96)%N ->
  get_current_user sign now' (Some (login_token sign now user)) db
  = if now + 3600 <? now' then (Raise credentials_exception, db)
    else match find (user_by_id (User._id user)) (users db) with
         | None => (Raise credentials_exception, db)
         | Some u => (Ok (Some u), db)
         end.
Proof.
  intros Hid.
  destruct (login_token_compact now user) as (alg & body & signature & Htok).
  pose proof (login_token_subject now now' user) as Hsub. rewrite Htok in Hsub.
  rewrite Htok.
  destruct (now + 3600 <? now').
  - rewrite get_current_user_run, Hsub. reflexivity.
  - exact (get_current_user_subject _ _ _ _ _ _ _ Hsub (ObjectId_of_str_str _ Hid)).
Qed.

(** X13. The token [login] hands out resolves, for one hour, to the user
    it was issued for, as long as that user is in the store; once the
    hour has passed, or once the user is gone, [get_current_user] answers
    401.  The store is not touched. *)
Theorem login_token_resolves now now' user db :
  (User._id user < 2 ^ 96)%N ->
  find (user_by_id (User._id user)) (users db) = Some user ->
  (now' <= now + 3600 ->
     get_current_user sign now' (Some (login_token sign now user)) db
     = (Ok (Some user), db))
  /\ (now + 3600 < now' ->
     get_current_user sign now' (Some (login_token sign now user)) db
     = (Raise credentials_exception, db))
  /\ (forall db',
        find (user_by_id (User._id user)) (users db') = None ->
        get_current_user sign now' (Some (login_token sign now user)) db'
        = (Raise credentials_exception, db')).
Proof.
  intros Hid Hfind. split; [|split].
  - intros Hle. rewrite (get_current_user_login _ _ _ _ Hid), Hfind.
    destruct (Z.ltb_spec (now + 3600) now'); [lia | reflexivity].
  - intros Hlt. rewrite (get_current_user_login _ _ _ _ Hid).
    destruct (Z.ltb_spec (now + 3600) now'); [reflexivity | lia].
  - intros db' Hgone. rewrite (get_current_user_login _ _ _ _ Hid), Hgone.
    destruct (now + 3600 <? now'); reflexivity.
Qed.

(** X14. Without an explicit lifetime, or with a zero one,
    [create_access_token] issues a token that lives sixty minutes: its
    subject is recovered up to 3600 seconds after issuance and refused
    afterwards. *)
Theorem default_token_lifetime now now' (sub : string) expires_delta :
  expires_delta = None \/ expires_delta = Some 0 ->
  let token := create_access_token sign now {["sub" := jose.JStr sub]} expires_delta in
  (now' <= now + 3600 -> token_subject sign now' token = Ok (jose.JStr sub))
  /\ (now + 3600 < now' -> token_subject sign now' token = Raise credentials_exception).
Proof.
  intros Hdelta token.
  assert (Htok : token
                 = jose.encode sign
                     (<["exp" := jose.JInt (now + 3600)]> {["sub" := jose.JStr sub]})
                     settings.SECRET_KEY settings.ALGORITHM)
    by (destruct Hdelta as [-> | ->]; reflexivity).
  assert (Hsub : token_subject sign now' token
                 = if now + 3600 <? now' then Raise credentials_exception
                   else Ok (jose.JStr sub)).
  { rewrite Htok. apply token_subject_encoded. }
  rewrite Hsub. split; intros Hcmp;
    destruct (Z.ltb_spec (now + 3600) now'); (reflexivity || lia).
Qed.

(** [get_current_user_optional] in one equation. *)
Lemma get_current_user_optional_run now token db :
  get_current_user_optional sign now token db
  = if no_token token then (Ok None, db)
    else match get_current_user sign now token db with
         | (Raise (HTTPException _ _), db') => (Ok None, db')
         | r => r
         end.
Proof.
  unfold get_current_user_optional, try_except.
  destruct (no_token token); [reflexivity|].
  destruct (get_current_user sign now token db) as [[cu|[]] db']; reflexivity.
Qed.

Lemma optional_caller_of_failure now tok e db :
  token_subject sign now tok = Raise e ->
  get_current_user_optional sign now (Some tok) db = (Ok None, db).
Proof.
  intros Hsub. rewrite get_current_user_optional_run.
  destruct (no_token (Some tok)) eqn:Hno; [reflexivity|].
  destruct tok as [alg body signature|raw].
  - rewrite get_current_user_run, Hsub.
    rewrite (token_subject_raise _ _ _ Hsub). reflexivity.
  - unfold get_current_user. rewrite Hno. reflexivity.
Qed.

(** X15. [get_current_user_optional] turns every verification failure
    into "no caller": with no token, and with a token that is malformed,
    badly signed, expired or without a subject, it answers [None] and
    never a 401; so does a well-signed token whose user is gone. *)
Theorem optional_caller_swallows now token db :
  (no_token token = true ->
     get_current_user_optional sign now token db = (Ok None, db))
  /\ (forall tok e,
        token = Some tok -> token_subject sign now tok = Raise e ->
        get_current_user_optional sign now token db = (Ok None, db))
  /\ (forall tok user_id oid,
        token = Some tok ->
        token_subject sign now tok = Ok (jose.JStr user_id) ->
        ObjectId.of_str user_id = Some oid ->
        find (user_by_id oid) (users db) = None ->
        get_current_user_optional sign now token db = (Ok None, db))
  /\ (forall status_code detail db',
        get_current_user_optional sign now token db
        <> (Raise (HTTPException status_code detail), db')).
Proof.
  split; [|split; [|split]].
  - intros Hno. rewrite get_current_user_optional_run, Hno. reflexivity.
  - intros tok e -> Hsub. exact (optional_caller_of_failure now tok e db Hsub).
  - intros tok user_id oid -> Hsub Hid Hgone. rewrite get_current_user_optional_run.
    destruct (no_token (Some tok)) eqn:Hno; [reflexivity|].
    destruct tok as [alg body signature|raw]; [|discriminate].
    rewrite (get_current_user_subject _ _ _ _ _ _ _ Hsub Hid), Hgone. reflexivity.
  - intros status_code detail db'. rewrite get_current_user_optional_run.
    destruct (no_token token); [discriminate|].
    destruct (get_current_user sign now token db) as [[cu|[]] db'']; discriminate.
Qed.

End caller_properties.

Lemma token_round_trip_witness :
  let token :=
    create_access_token toy_sign 1700000000
      {["sub" := jose.JStr (ObjectId.str (User._id customer))]} (Some 3600) in
  token_subject toy_sign 1700000000 token
    = Ok (jose.JStr (ObjectId.str (User._id customer)))
  /\ get_current_user toy_sign 1700000000 (Some token) sample_store
     = (Ok (Some customer), sample_store)
  /\ get_current_user toy_sign 1700003600 (Some token) sample_store
     = (Ok (Some customer), sample_store)
  /\ get_current_user toy_sign 1700003601 (Some token) sample_store
     = (Raise credentials_exception, sample_store).
Proof.
  intros token.
  pose proof (token_round_trip toy_sign 1700000000 (ObjectId.str (User._id customer))
                3600 eq_refl)
    as (Hnow & _ & _ & _ & _ & _ & Hfresh & Hstale & _).
  split; [exact Hnow|].
  split; [exact (Hfresh 1700000000 7%N sample_store ltac:(discriminate) eq_refl)|].
  split; [exact (Hfresh 1700003600 7%N sample_store ltac:(discriminate) eq_refl)|].
  exact (Hstale 1700003601 sample_store eq_refl).
Defined.

Lemma login_token_resolves_witness :
  get_current_user toy_sign 1700000900
    (Some (login_token toy_sign 1700000000 customer)) sample_store
  = (Ok (Some customer), sample_store).
Proof.
  apply (proj1 (login_token_resolves toy_sign 1700000000 1700000900 customer
                  sample_store eq_refl eq_refl)).
  discriminate.
Defined.

Lemma default_token_lifetime_witness :
  token_subject toy_sign 1700003600
    (create_access_token toy_sign 1700000000 {["sub" := jose.JStr order_id_1]} (Some 0))
  = Ok (jose.JStr order_id_1).
Proof.
  apply (proj1 (default_token_lifetime toy_sign 1700000000 1700003600 order_id_1
                  (Some 0) (or_intror eq_refl))).
  discriminate.
Defined.

Lemma optional_caller_swallows_witness :
  get_current_user_optional toy_sign 1700009999
    (Some (login_token toy_sign 1700000000 customer)) sample_store
  = (Ok None, sample_store).
Proof.
  exact (proj1 (proj2 (optional_caller_swallows toy_sign 1700009999
                         (Some (login_token toy_sign 1700000000 customer))
                         sample_store))
           (login_token toy_sign 1700000000 customer) credentials_exception
           eq_refl eq_refl).
Defined.

(** ** The routes behind their gates *)

Section route_properties.
Context {Tag : Type} `{EqDecision Tag}.
Variable sign : string -> string -> jose.payload -> Tag.

(** The caller a request without a usable token gets from
    [get_current_user]: none, or a 401. *)
Lemma get_current_user_unauthenticated now token db :
  no_token token = true
  \/ (exists tok e, token = Some tok /\ token_subject sign now tok = Raise e) ->
  get_current_user sign now token db = (Ok None, db)
  \/ get_current_user sign now token db = (Raise credentials_exception, db).
Proof.
  intros [Hno | (tok & e & -> & Hsub)].
  - left. unfold get_current_user. destruct token as [tok|]; [|reflexivity].
    rewrite Hno. reflexivity.
  - unfold get_current_user.
    destruct (no_token (Some tok)); [left; reflexivity|].
    right. rewrite Hsub, (token_subject_raise _ _ _ _ Hsub). reflexivity.
Qed.

(** X16. Without a usable token nothing can be cancelled or updated:
    with no token, or with a token that is malformed, badly signed or
    expired, the cancel route and the update route answer 401 for every
    identifier and patch, and leave the store as it was. *)
Theorem protected_routes_need_token now token order_id order_data db :
  no_token token = true
  \/ (exists tok e, token = Some tok /\ token_subject sign now tok = Raise e) ->
  exists detail,
    post_orders_id_cancel sign now token order_id db
      = (Raise (HTTPException 401 detail), db)
    /\ put_orders_id sign now token order_id order_data db
      = (Raise (HTTPException 401 detail), db).
Proof.
  intros Htok.
  unfold post_orders_id_cancel, put_orders_id, depends_admin_user,
    depends_active_user, bind.
  destruct (get_current_user_unauthenticated now token db Htok) as [-> | ->].
  - exists "Not authenticated". split; reflexivity.
  - exists "Could not validate credentials". split; reflexivity.
Qed.

(** The gates on the token [login] gave to a user of the store. *)
Lemma depends_active_user_login now now' user db :
  (User._id user < 2 ^ 96)%N ->
  find (user_by_id (User._id user)) (users db) = Some user ->
  now' <= now + 3600 ->
  depends_active_user sign now' (Some (login_token sign now user)) db
  = if negb (is_active_or_default user)
    then (Raise (HTTPException 400 "Inactive user"), db)
    else (Ok user, db).
Proof.
  intros Hid Hfind Hle. unfold depends_active_user, bind.
  rewrite (get_current_user_login _ _ _ _ _ Hid), Hfind.
  destruct (Z.ltb_spec (now + 3600) now'); [lia|].
  unfold get_current_active_user.
  destruct (negb (is_active_or_default user)); reflexivity.
Qed.

(** X17. Updating orders is for admins only: with the valid token of a
    stored, active user who has no admin flag, the update route answers
    403 for every identifier and patch, well-formed or not, and leaves
    the store as it was; with the token of a disabled user, the update
    and the cancel route both answer 400 "Inactive user". *)
Theorem update_route_admin_only now now' user order_id order_data db :
  (User._id user < 2 ^ 96)%N ->
  find (user_by_id (User._id user)) (users db) = Some user ->
  now' <= now + 3600 ->
  let token := Some (login_token sign now user) in
  (User.is_active user <> Some false -> ~ has_admin_flag user ->
     put_orders_id sign now' token order_id order_data db
     = (Raise (HTTPException 403 "Not enough permissions"), db))
  /\ (User.is_active user = Some false ->
     put_orders_id sign now' token order_id order_data db
       = (Raise (HTTPException 400 "Inactive user"), db)
     /\ post_orders_id_cancel sign now' token order_id db
       = (Raise (HTTPException 400 "Inactive user"), db)).
Proof.
  intros Hid Hfind Hle token.
  pose proof (depends_active_user_login now now' user db Hid Hfind Hle) as Hgate.
  unfold put_orders_id, post_orders_id_cancel, depends_admin_user, bind, token.
  rewrite Hgate. unfold is_active_or_default. split.
  - intros Hact Hadm.
    destruct (User.is_active user) as [[|]|]; try congruence; cbn [negb];
      unfold get_admin_user;
      (destruct (truthy_bool (User.is_admin user)) eqn:Ht;
       [apply truthy_admin_flag in Ht; contradiction | reflexivity]).
  - intros ->. split; reflexivity.
Qed.

(** X18. Checkout never refuses a bad token: when the token presented
    to the create route is malformed, badly signed or expired, the order
    is created exactly as for a visitor without a token, as a guest
    order without an owner. *)
Theorem checkout_with_bad_token_is_guest timestamp random_part now inserted_id
    tok e order_data db :
  token_subject sign now tok = Raise e ->
  post_orders sign timestamp random_part now inserted_id (Some tok) order_data db
  = create_order timestamp random_part now inserted_id order_data None db
  /\ post_orders sign timestamp random_part now inserted_id None order_data db
     = create_order timestamp random_part now inserted_id order_data None db
  /\ Order.user_id (order_doc timestamp random_part now inserted_id order_data None)
     = None.
Proof.
  intros Hsub. unfold post_orders, bind.
  rewrite (optional_caller_of_failure sign now tok e db Hsub).
  unfold get_current_user_optional. cbn [no_token ret].
  repeat split. rewrite order_doc_owner. reflexivity.
Qed.

Lemma optional_caller_login now now' user db :
  (User._id user < 2 ^ 96)%N ->
  find (user_by_id (User._id user)) (users db) = Some user ->
  now' <= now + 3600 ->
  get_current_user_optional sign now' (Some (login_token sign now user)) db
  = (Ok (Some user), db).
Proof.
  intros Hid Hfind Hle. rewrite get_current_user_optional_run.
  destruct (login_token_compact sign now user) as (alg & body & signature & Htok).
  rewrite Htok. cbn [no_token]. rewrite <- Htok.
  rewrite (get_current_user_login _ _ _ _ _ Hid), Hfind.
  destruct (Z.ltb_spec (now + 3600) now'); [lia | reflexivity].
Qed.

Lemma ObjectId_str_inj (a b : ObjectId.t) :
  (a < 2 ^ 96)%N -> (b < 2 ^ 96)%N -> ObjectId.str a = ObjectId.str b -> a = b.
Proof.
  intros Ha Hb Heq.
  pose proof (ObjectId_of_str_str a Ha) as H1.
  rewrite Heq, (ObjectId_of_str_str b Hb) in H1. congruence.
Qed.

(** X19. From login to cancellation: an order placed through the create
    route with a user's valid token belongs to that user; the cancel
    route then cancels it for the same token, and answers 403 to the
    valid token of any other stored user without the admin flag. *)
Theorem owner_cancels_through_routes timestamp random_part issued now now'
    inserted_id user other order_data db resp db' :
  (User._id user < 2 ^ 96)%N ->
  (inserted_id < 2 ^ 96)%N ->
  find (user_by_id (User._id user)) (users db) = Some user ->
  User.is_active user <> Some false ->
  now <= issued + 3600 ->
  now' <= issued + 3600 ->
  post_orders sign timestamp random_part now inserted_id
    (Some (login_token sign issued user)) order_data db = (Ok resp, db') ->
  (exists resp' db'',
     post_orders_id_cancel sign now' (Some (login_token sign issued user))
       (OrderResponse.id resp) db' = (Ok resp', db'')
     /\ OrderResponse.status resp' = OrderStatus.CANCELLED
     /\ OrderResponse.id resp' = OrderResponse.id resp)
  /\ ((User._id other < 2 ^ 96)%N ->
      User._id other <> User._id user ->
      find (user_by_id (User._id other)) (users db) = Some other ->
      User.is_active other <> Some false ->
      ~ has_admin_flag other ->
      post_orders_id_cancel sign now' (Some (login_token sign issued other))
        (OrderResponse.id resp) db' = (Raise Forbidden_cancel, db')).
Proof.
  intros Hid Hnew Hfind Hact Hnow Hnow' Hpost.
  unfold post_orders, bind in Hpost.
  rewrite (optional_caller_login _ _ _ _ Hid Hfind Hnow) in Hpost.
  destruct (create_order_ok _ _ _ _ _ _ _ _ _ Hpost) as (Hdup & Hresp & Hdb).
  assert (Hactive : forall u, User.is_active u <> Some false ->
                              negb (is_active_or_default u) = false).
  { intros u Hu. unfold is_active_or_default.
    destruct (User.is_active u) as [[|]|]; cbn; congruence. }
  split.
  - destruct (create_then_cancel_run _ _ _ _ _ _ _ _ _ now' Hpost Hnew)
      as (resp' & db'' & Hcancel & Hs & Hi & _).
    exists resp', db''. split; [|split; assumption].
    unfold post_orders_id_cancel, bind.
    rewrite depends_active_user_login; [|exact Hid| |exact Hnow'].
    + rewrite (Hactive user Hact). exact Hcancel.
    + rewrite Hdb. exact Hfind.
  - intros Hoid Hne Hofind Hoact Hoadm.
    unfold post_orders_id_cancel, bind.
    rewrite depends_active_user_login; [|exact Hoid| |exact Hnow'].
    2:{ rewrite Hdb. exact Hofind. }
    rewrite (Hactive other Hoact).
    set (doc := order_doc timestamp random_part now inserted_id order_data (Some user)) in *.
    assert (Hgood : ObjectId.of_str (OrderResponse.id resp) = Some (Order._id doc)).
    { rewrite Hresp. cbn [serialize_order OrderResponse.id].
      apply ObjectId_of_str_str. unfold doc. rewrite order_doc_id. exact Hnew. }
    rewrite (cancel_order_run _ _ _ _ _ Hgood), Hdb. cbn [orders].
    rewrite (find_created_by_id _ _ Hdup).
    rewrite (proj2 (cancel_refused_iff other doc)); [reflexivity|].
    split; [|exact Hoadm].
    unfold is_owner, doc. rewrite order_doc_owner. cbn [option_map].
    intros Heq. apply Hne.
    apply ObjectId_str_inj; [exact Hoid | exact Hid | congruence].
Qed.

End route_properties.

Lemma protected_routes_need_token_witness :
  exists detail,
    post_orders_id_cancel toy_sign 1700000100 None order_id_1 sample_store
      = (Raise (HTTPException 401 detail), sample_store)
    /\ put_orders_id toy_sign 1700000100 None order_id_1 empty_patch sample_store
      = (Raise (HTTPException 401 detail), sample_store).
Proof.
  exact (protected_routes_need_token toy_sign 1700000100 None order_id_1 empty_patch
           sample_store (or_introl eq_refl)).
Defined.

Lemma update_route_admin_only_witness :
  put_orders_id toy_sign 1700000100 (Some (login_token toy_sign 1700000000 customer))
    "not-an-id" (status_patch OrderStatus.DELIVERED) sample_store
  = (Raise (HTTPException 403 "Not enough permissions"), sample_store).
Proof.
  apply (proj1 (update_route_admin_only toy_sign 1700000000 1700000100 customer
                  "not-an-id" (status_patch OrderStatus.DELIVERED) sample_store
                  eq_refl eq_refl ltac:(discriminate))).
  - discriminate.
  - unfold has_admin_flag. discriminate.
Defined.

Lemma checkout_with_bad_token_is_guest_witness :
  post_orders toy_sign "250102" "XYZ789" 1700009999 2%N
    (Some (login_token toy_sign 1700000000 customer)) sample_request sample_store
  = create_order "250102" "XYZ789" 1700009999 2%N sample_request None sample_store.
Proof.
  exact (proj1 (checkout_with_bad_token_is_guest toy_sign "250102" "XYZ789" 1700009999
                  2%N (login_token toy_sign 1700000000 customer) credentials_exception
                  sample_request sample_store eq_refl)).
Defined.

Lemma owner_cancels_through_routes_witness :
  let token := Some (login_token toy_sign 1700000000 customer) in
  let doc := order_doc "250102" "XYZ789" 1700000300 2%N sample_request (Some customer) in
  let db' := mkdb (orders sample_store ++ [doc]) (users sample_store) in
  post_orders toy_sign "250102" "XYZ789" 1700000300 2%N token sample_request sample_store
    = (Ok (serialize_order doc), db')
  /\ exists resp' db'',
       post_orders_id_cancel toy_sign 1700000400 token
         (OrderResponse.id (serialize_order doc)) db' = (Ok resp', db'')
       /\ OrderResponse.status resp' = OrderStatus.CANCELLED
       /\ OrderResponse.id resp' = OrderResponse.id (serialize_order doc).
Proof.
  intros token doc db'. split; [reflexivity|].
  refine (proj1 (owner_cancels_through_routes toy_sign "250102" "XYZ789" 1700000000
                   1700000300 1700000400 2%N customer other_customer sample_request
                   sample_store (serialize_order doc) db'
                   eq_refl eq_refl eq_refl _ _ _ eq_refl));
    discriminate.
Defined.

(** ** Listings *)

Lemma insert_newest_first_perm o l :
  Permutation (insert_newest_first o l) (o :: l).
Proof.
  induction l as [|x l IH]; simpl; [reflexivity|].
  destruct (Order.created_at x <=? Order.created_at o); [reflexivity|].
  rewrite IH. apply perm_swap.
Qed.

Lemma sort_newest_first_perm l : Permutation (sort_newest_first l) l.
Proof.
  induction l as [|x l IH]; simpl; [reflexivity|].
  rewrite insert_newest_first_perm, IH. reflexivity.
Qed.

Lemma insert_newest_first_sorted o l :
  newest_first l -> newest_first (insert_newest_first o l).
Proof.
  unfold newest_first. induction 1 as [|x l Hl IH Hx]; simpl.
  - repeat constructor.
  - destruct (Z.leb_spec (Order.created_at x) (Order.created_at o)) as [Hle|Hgt].
    + constructor; [constructor; assumption|].
      constructor; [exact Hle|].
      eapply Forall_impl; [exact Hx|]. intros y Hy. simpl in Hy. lia.
    + constructor; [exact IH|].
      rewrite insert_newest_first_perm. constructor; [lia | exact Hx].
Qed.

Lemma sort_newest_first_sorted l : newest_first (sort_newest_first l).
Proof.
  induction l as [|x l IH]; simpl; [constructor|].
  apply insert_newest_first_sorted, IH.
Qed.







(** [get_user_orders] in one equation. *)
Lemma get_user_orders_run page page_size current_user db :
  get_user_orders page page_size current_user db
  = (Ok {| OrderListResponse.orders :=
             map serialize_order
               (firstn (Z.to_nat page_size)
                  (skipn (Z.to_nat ((page - 1) * page_size))
                     (sort_newest_first
                        (List.filter (by_user_id (ObjectId.str (User._id current_user)))
                           (orders db)))));
           OrderListResponse.total :=
             Z.of_nat (length (List.filter
                                 (by_user_id (ObjectId.str (User._id current_user)))
                                 (orders db)));
           OrderListResponse.page := page;
           OrderListResponse.page_size := page_size |}, db).
Proof. reflexivity. Qed.








Lemma concat_slices {A} (l : list A) (size n : nat) :
  concat (map (fun i => firstn size (skipn (i * size) l)) (seq 0 n))
  = firstn (n * size) l.
Proof.
  induction n as [|n IH]; [reflexivity|].
  rewrite seq_S, map_app, concat_app, IH. cbn [map concat Nat.add].
  rewrite app_nil_r, take_take_drop. f_equal. lia.
Qed.

Lemma newest_first_strict (l : list Order.t) :
  newest_first l -> NoDup (map Order.created_at l) ->
  StronglySorted (fun a b => Order.created_at b < Order.created_at a) l.
Proof.
  unfold newest_first. induction 1 as [|a l Hl IH Ha]; intros Hnd; [constructor|].
  cbn [map] in Hnd. apply NoDup_cons in Hnd as [Hnotin Hnd].
  constructor; [apply IH; exact Hnd|].
  apply List.Forall_forall. intros b Hb.
  pose proof (proj1 (List.Forall_forall _ _) Ha b Hb) as Hle. cbn beta in Hle.
  assert (Hne : Order.created_at b <> Order.created_at a).
  { intros Heq. apply Hnotin. rewrite <- Heq.
    apply list_elem_of_In, in_map, Hb. }
  lia.
Qed.

(** X22. The pages of [get_user_orders] tile the listing.  When no two
    orders of the caller were created at the same time, the caller's
    orders have one newest-first arrangement; read in turn, pages 1 to
    [n] of a given size answer its first [n * page_size] orders, each
    once, with no gap and no repeat between pages; once [n * page_size]
    reaches [total], that is every order of the caller. *)
Theorem user_pages_tile (n : nat) page_size current_user db :
  1 <= page_size ->
  let mine :=
    List.filter (by_user_id (ObjectId.str (User._id current_user))) (orders db) in
  NoDup (map Order.created_at mine) ->
  exists listing,
    Permutation listing mine
    /\ StronglySorted (fun a b => Order.created_at b < Order.created_at a) listing
    /\ concat (map (fun page => listed (get_user_orders page page_size current_user db))
                   (pages n))
       = map serialize_order (firstn (n * Z.to_nat page_size) listing)
    /\ (Z.of_nat (length mine) <= Z.of_nat n * page_size ->
        concat (map (fun page => listed (get_user_orders page page_size current_user db))
                    (pages n))
        = map serialize_order listing).
Proof.
  intros Hsize mine Hdistinct.
  set (listing := sort_newest_first mine).
  assert (Hperm : Permutation listing mine) by apply sort_newest_first_perm.
  assert (Htile :
    concat (map (fun page => listed (get_user_orders page page_size current_user db))
                (pages n))
    = map serialize_order (firstn (n * Z.to_nat page_size) listing)).
  { unfold pages. rewrite map_map.
    rewrite <- (concat_slices listing (Z.to_nat page_size) n).
    rewrite concat_map, map_map. f_equal.
    apply map_ext. intros i.
    rewrite get_user_orders_run. unfold listed, answer. cbn [fst OrderListResponse.orders].
    fold mine. fold listing. do 3 f_equal. nia. }
  exists listing. split; [exact Hperm|]. split; [|split; [exact Htile|]].
  - apply newest_first_strict; [apply sort_newest_first_sorted|].
    rewrite (Permutation_map Order.created_at Hperm). exact Hdistinct.
  - intros Hall. rewrite Htile. f_equal. apply firstn_all2.
    rewrite (Permutation_length Hperm). nia.
Qed.

Lemma user_pages_tile_witness :
  let older := stored_order 1%N (Some (ObjectId.str 7%N)) OrderStatus.PENDING in
  let newer := order_doc "250102" "XYZ789" 1700000300 2%N sample_request (Some customer) in
  let db := mkdb [older; newer] [customer; other_customer; admin_user] in
  exists listing,
    Permutation listing [older; newer]
    /\ StronglySorted (fun a b => Order.created_at b < Order.created_at a) listing
    /\ concat (map (fun page => listed (get_user_orders page 1 customer db)) (pages 2))
       = map serialize_order listing.
Proof.
  intros older newer db.
  assert (Hdistinct : NoDup (map Order.created_at
                               (List.filter (by_user_id (ObjectId.str (User._id customer)))
                                  (orders db)))).
  { change (NoDup [1700000000; 1700000300]).
    apply NoDup_cons. split; [|apply NoDup_singleton].
    intros Hin. apply list_elem_of_In in Hin. destruct Hin as [Heq|[]]. discriminate. }
  destruct (user_pages_tile 2 1 customer db ltac:(discriminate) Hdistinct)
    as (listing & Hperm & Hsorted & _ & Hall).
  exists listing. split; [exact Hperm|]. split; [exact Hsorted|].
  apply Hall. discriminate.
Defined.

(** ** Statistics *)

Lemma OrderStatus_value_inj (a b : OrderStatus.t) :
  OrderStatus.value a = OrderStatus.value b -> a = b.
Proof. destruct a, b; simpl; intros H; (reflexivity || discriminate). Qed.

Lemma lookup_status_groups (ss : list OrderStatus.t) (l : list Order.t)
    (s : OrderStatus.t) :
  (list_to_map
     (omap (fun s' =>
              if 0 <? status_count s' l
              then Some (OrderStatus.value s', status_count s' l) else None) ss)
   : gmap string Z) !! OrderStatus.value s
  = if bool_decide (s ∈ ss) && (0 <? status_count s l)
    then Some (status_count s l) else None.
Proof.
  induction ss as [|s' ss IH]; [reflexivity|].
  assert (Hin : bool_decide (s ∈ s' :: ss)
                = bool_decide (s' = s) || bool_decide (s ∈ ss)).
  { destruct (decide (s' = s)) as [->|Hne].
    - rewrite (bool_decide_eq_true_2 (s = s)) by reflexivity.
      rewrite (bool_decide_eq_true_2 (s ∈ s :: ss)) by (apply elem_of_cons; left; reflexivity).
      reflexivity.
    - rewrite (bool_decide_eq_false_2 (s' = s)) by exact Hne. cbn [orb].
      apply bool_decide_ext. rewrite elem_of_cons.
      split; [intros [Heq|Hin']; [congruence | exact Hin'] | tauto]. }
  rewrite Hin. cbn [omap list_omap].
  destruct (0 <? status_count s' l) eqn:Hpos.
  - cbn [list_to_map foldr uncurry].
    destruct (decide (s' = s)) as [->|Hne].
    + rewrite bool_decide_eq_true_2 by reflexivity. cbn [orb andb].
      rewrite Hpos. apply lookup_insert_eq.
    + rewrite (bool_decide_eq_false_2 (s' = s)) by exact Hne. cbn [orb].
      rewrite lookup_insert_ne; [exact IH|].
      intros Heq. apply Hne, OrderStatus_value_inj, Heq.
  - destruct (decide (s' = s)) as [->|Hne].
    + rewrite bool_decide_eq_true_2 by reflexivity. cbn [orb andb].
      rewrite Hpos, IH, Hpos, andb_false_r. reflexivity.
    + rewrite (bool_decide_eq_false_2 (s' = s)) by exact Hne. cbn [orb]. exact IH.
Qed.

Lemma status_count_cons (s : OrderStatus.t) (o : Order.t) (l : list Order.t) :
  status_count s (o :: l)
  = (if OrderStatus.eqb (Order.status o) s then 1 else 0) + status_count s l.
Proof.
  unfold status_count. cbn [List.filter]. unfold has_status at 1.
  destruct (OrderStatus.eqb (Order.status o) s); cbn [length]; lia.
Qed.


Lemma revenue_total (l : list Order.t) :
  match revenue_pipeline l with
  | r :: _ => r
  | [] => 0
  end = sum (map Order.total (List.filter is_paid l)).
Proof.
  unfold revenue_pipeline. destruct (List.filter is_paid l); reflexivity.
Qed.

Lemma filter_true_length {A} (l : list A) :
  length (List.filter (fun _ => true) l) = length l.
Proof. induction l as [|x l IH]; simpl; [reflexivity | rewrite IH; reflexivity]. Qed.

(** [get_order_stats] in one equation. *)
Lemma get_order_stats_run admin db :
  get_order_stats admin db
  = (Ok {| OrderStats.total_orders := Z.of_nat (length (orders db));
           OrderStats.orders_by_status := list_to_map (status_pipeline (orders db));
           OrderStats.total_revenue :=
             sum (map Order.total (List.filter is_paid (orders db)));
           OrderStats.pending_orders := status_count OrderStatus.PENDING (orders db) |},
     db).
Proof.
  unfold get_order_stats, bind, count_documents, aggregate, ret.
  rewrite revenue_total, filter_true_length. reflexivity.
Qed.

Lemma lookup_status_pipeline (l : list Order.t) (s : OrderStatus.t) :
  (list_to_map (status_pipeline l) : gmap string Z) !! OrderStatus.value s
  = if 0 <? status_count s l then Some (status_count s l) else None.
Proof.
  pose proof (lookup_status_groups all_statuses l s) as Hl.
  rewrite bool_decide_eq_true_2 in Hl
    by (unfold all_statuses; destruct s; set_solver).
  exact Hl.
Qed.

Lemma default_status_pipeline (l : list Order.t) (s : OrderStatus.t) :
  default 0 ((list_to_map (status_pipeline l) : gmap string Z) !! OrderStatus.value s)
  = status_count s l.
Proof.
  rewrite lookup_status_pipeline.
  destruct (Z.ltb_spec 0 (status_count s l)); [reflexivity|].
  cbn [default]. unfold status_count in *. lia.
Qed.


Lemma same_snapshot_total o o' : same_snapshot o o' -> Order.total o' = Order.total o.
Proof. unfold same_snapshot. tauto. Qed.

Lemma paid_totals_update_first (p : Order.t -> bool) (f : Order.t -> Order.t)
    (l : list Order.t) :
  (forall x, same_snapshot x (f x)) ->
  (forall x, Order.payment_status (f x) = Order.payment_status x) ->
  map Order.total (List.filter is_paid (update_first p f l))
  = map Order.total (List.filter is_paid l).
Proof.
  intros Hsnap Hpay.
  assert (Hpaid : forall x, is_paid (f x) = is_paid x)
    by (intros x; unfold is_paid; rewrite Hpay; reflexivity).
  induction l as [|x l IH]; [reflexivity|].
  cbn [update_first]. destruct (p x).
  - cbn [List.filter]. rewrite Hpaid.
    destruct (is_paid x); cbn [map]; [|reflexivity].
    f_equal. apply same_snapshot_total, Hsnap.
  - cbn [List.filter]. destruct (is_paid x); cbn [map]; rewrite IH; reflexivity.
Qed.

Lemma cancelled_count_update_first (oid : ObjectId.t) (now : datetime)
    (l : list Order.t) (o : Order.t) :
  find (by_id oid) l = Some o ->
  Order.status o <> OrderStatus.CANCELLED ->
  status_count OrderStatus.CANCELLED (update_first (by_id oid) (cancelled now) l)
  = status_count OrderStatus.CANCELLED l + 1.
Proof.
  intros Hfind Hs. induction l as [|x l IH]; [discriminate|].
  cbn [find update_first] in *. destruct (by_id oid x).
  - injection Hfind as ->. rewrite !status_count_cons.
    change (Order.status (cancelled now o)) with OrderStatus.CANCELLED.
    destruct (Order.status o); cbn [OrderStatus.eqb]; try lia. contradiction.
  - rewrite !status_count_cons, (IH Hfind). lia.
Qed.

(** X24. Cancelling refunds nothing: after a successful [cancel_order],
    [get_order_stats] reports the same [total_orders] and the same
    [total_revenue] as before (a paid order stays counted as revenue),
    and one more order under "cancelled". *)
Theorem cancel_order_in_stats now order_id current_user admin db resp db' :
  cancel_order now order_id current_user db = (Ok resp, db') ->
  exists before after,
    get_order_stats admin db = (Ok before, db)
    /\ get_order_stats admin db' = (Ok after, db')
    /\ OrderStats.total_orders after = OrderStats.total_orders before
    /\ OrderStats.total_revenue after = OrderStats.total_revenue before
    /\ default 0 (OrderStats.orders_by_status after !! "cancelled")
       = default 0 (OrderStats.orders_by_status before !! "cancelled") + 1.
Proof.
  intros Hrun.
  destruct (cancel_order_ok _ _ _ _ _ _ Hrun)
    as (oid & o & Hid & Hfind & _ & Hstatus & _ & ->).
  eexists. eexists.
  split; [apply get_order_stats_run|]. split; [apply get_order_stats_run|].
  cbn [OrderStats.total_orders OrderStats.orders_by_status
       OrderStats.total_revenue orders].
  split; [rewrite length_update_first; reflexivity|].
  split; [rewrite paid_totals_update_first;
          [reflexivity | apply cancelled_snapshot | reflexivity]|].
  rewrite (default_status_pipeline _ OrderStatus.CANCELLED).
  rewrite (default_status_pipeline _ OrderStatus.CANCELLED).
  apply (cancelled_count_update_first oid now (orders db) o Hfind).
  destruct Hstatus as [-> | ->]; discriminate.
Qed.

Lemma cancel_order_in_stats_witness :
  let o := cancelled 1700000100
             (stored_order 1%N (Some (ObjectId.str 7%N)) OrderStatus.PENDING) in
  let db' := mkdb [o] [customer; other_customer; admin_user] in
  exists before after,
    get_order_stats admin_user sample_store = (Ok before, sample_store)
    /\ get_order_stats admin_user db' = (Ok after, db')
    /\ OrderStats.total_orders after = OrderStats.total_orders before
    /\ OrderStats.total_revenue after = OrderStats.total_revenue before
    /\ default 0 (OrderStats.orders_by_status after !! "cancelled")
       = default 0 (OrderStats.orders_by_status before !! "cancelled") + 1.
Proof.
  intros o db'.
  exact (cancel_order_in_stats 1700000100 order_id_1 customer admin_user sample_store
           (serialize_order o) db' eq_refl).
Defined.





(** ** Collisions and malformed subjects *)

Lemma existsb_in {A} (p : A -> bool) (l : list A) (x : A) :
  In x l -> p x = true -> existsb p l = true.
Proof. intros Hin Hp. apply existsb_exists. eauto. Qed.

(** Whether the driver can encode the document of an order does not
    depend on the number drawn for it. *)
Lemma encodable_any_number timestamp random_part random_part' now inserted_id
    order_data current_user :
  orders_collection.encodable
    (order_doc timestamp random_part now inserted_id order_data current_user)
  = orders_collection.encodable
      (order_doc timestamp random_part' now inserted_id order_data current_user).
Proof.
  unfold orders_collection.encodable.
  rewrite !order_doc_items, !order_doc_total, !order_doc_subtotal,
    !order_doc_shipping_cost.
  reflexivity.
Qed.

(** X26. A collision of order numbers is not retried.  Once an order has
    been created, every further [create_order] that draws the same date
    stamp and random part fails with an exception that is no
    [HTTPException] and stores nothing, whatever the request, the caller
    and the new id.  When the same request would have been accepted under
    another random part, the exception is the store's duplicate-key
    error. *)
Theorem create_order_collision timestamp random_part now inserted_id order_data
    current_user db now0 id0 data0 user0 db0 resp0 :
  create_order timestamp random_part now0 id0 data0 user0 db0 = (Ok resp0, db) ->
  (exists e,
     create_order timestamp random_part now inserted_id order_data current_user db
     = (Raise e, db)
     /\ is_HTTPException e = false)
  /\ (forall random_part' resp' db',
        create_order timestamp random_part' now inserted_id order_data current_user db
        = (Ok resp', db') ->
        create_order timestamp random_part now inserted_id order_data current_user db
        = (Raise DuplicateKeyError, db)).
Proof.
  intros Hfirst.
  destruct (create_order_ok _ _ _ _ _ _ _ _ _ Hfirst) as (_ & _ & Hdb).
  set (doc := order_doc timestamp random_part now inserted_id order_data current_user).
  pose proof (create_order_run timestamp random_part now inserted_id order_data
                current_user db) as Hrun. cbv zeta in Hrun. fold doc in Hrun.
  assert (Hdup : duplicate_key doc db = true).
  { unfold duplicate_key.
    apply (existsb_in _ _ (order_doc timestamp random_part now0 id0 data0 user0)).
    - rewrite Hdb. cbn [orders]. apply in_or_app. right. left. reflexivity.
    - unfold doc. rewrite !order_doc_number. apply orb_true_iff. right.
      apply String.eqb_refl. }
  rewrite Hdup in Hrun. split.
  - rewrite Hrun.
    destruct (negb (orders_collection.encodable doc)); eexists; split; reflexivity.
  - intros random_part' resp' db' Hother.
    pose proof (create_order_run timestamp random_part' now inserted_id order_data
                  current_user db) as Hrun'. cbv zeta in Hrun'.
    rewrite Hrun' in Hother.
    rewrite <- (encodable_any_number timestamp random_part random_part') in Hother.
    fold doc in Hother. rewrite Hrun.
    destruct (negb (orders_collection.encodable doc)); [discriminate | reflexivity].
Qed.

Lemma create_order_collision_witness :
  exists resp db' resp' db'',
    create_order "250102" "XYZ789" 1700000300 2%N sample_request (Some customer)
      sample_store = (Ok resp, db')
    /\ create_order "250102" "QRS456" 1700000400 3%N mixed_case_request None db'
       = (Ok resp', db'')
    /\ create_order "250102" "XYZ789" 1700000400 3%N mixed_case_request None db'
       = (Raise DuplicateKeyError, db').
Proof.
  eexists. eexists. eexists. eexists.
  split; [reflexivity|]. split; [reflexivity|].
  exact (proj2 (create_order_collision "250102" "XYZ789" 1700000400 3%N
                  mixed_case_request None _ 1700000300 2%N sample_request
                  (Some customer) sample_store _ eq_refl)
           "QRS456" _ _ eq_refl).
Defined.

Section subject_properties.
Context {Tag : Type} `{EqDecision Tag}.
Variable sign : string -> string -> jose.payload -> Tag.

(** X27. The subject of a token is turned into an id outside the [try]
    block: a well-signed, unexpired token whose subject [ObjectId]
    refuses (its length is not 24, or [bytes.fromhex] does not read it)
    makes [get_current_user] end with the library's [InvalidId], not with
    the 401; [get_current_user_optional], which catches [HTTPException]
    only, lets it through as well. *)
Theorem malformed_subject_unhandled now now' (sub : string) (ttl : Z) db :
  0 < ttl -> now' <= now + ttl ->
  ObjectId.binary sub = None ->
  let token := Some (create_access_token sign now {["sub" := jose.JStr sub]} (Some ttl)) in
  get_current_user sign now' token db = (Raise InvalidId, db)
  /\ get_current_user_optional sign now' token db = (Raise InvalidId, db).
Proof.
  intros Httl Hle Hbad token.
  assert (Hne : ttl <> 0) by lia.
  assert (Hcur : get_current_user sign now' token db = (Raise InvalidId, db)).
  { unfold token, get_current_user.
    rewrite (token_subject_issued sign now now' sub ttl Hne).
    destruct (Z.ltb_spec (now + ttl) now'); [lia|].
    unfold create_access_token, jose.encode. cbn [no_token].
    rewrite Hbad. reflexivity. }
  split; [exact Hcur|].
  rewrite get_current_user_optional_run, Hcur.
  unfold token, create_access_token, jose.encode. reflexivity.
Qed.

End subject_properties.

Lemma malformed_subject_unhandled_witness :
  get_current_user_optional toy_sign 1700000100
    (Some (create_access_token toy_sign 1700000000 {["sub" := jose.JStr "guest"]}
             (Some 3600)))
    sample_store
  = (Raise InvalidId, sample_store).
Proof.
  exact (proj2 (malformed_subject_unhandled toy_sign 1700000000 1700000100 "guest" 3600
                  sample_store eq_refl ltac:(discriminate) eq_refl)).
Defined.
